(** * Squeeble7th: the file-backed credential store and token service

    A shallow embedding of the authentication module (class [Database]):
    password hashing, HMAC-signed bearer tokens, refresh and reset token
    bookkeeping over a JSON file.

    Conventions of the model.
    - A JavaScript string is a [string]; text is held as its UTF-8 bytes, so
      [Buffer.from(str)] and [buf.toString('utf8')] are the conversions
      between [string] and [list byte].
    - A [Buffer] is a [list byte].
    - A thrown exception is the [Throw] case of [outcome]; an [async] method
      is run to completion (the module awaits every file operation in
      sequence).
    - Timestamps are integers ([nowSeconds] floors), held in [Z]. *)

From Stdlib Require Import String Ascii List ZArith NArith Lia Bool.
From Stdlib.Strings Require Import Byte.
Import ListNotations.

Local Open Scope string_scope.
Local Open Scope list_scope.

Set Warnings "-register-all".

(** ** Buffers and their text encodings *)

Definition Buffer := list byte.

Definition byte_of_N (n : N) : byte :=
  match Byte.of_N (n mod 256) with
  | Some b => b
  | None => x00
  end.

(** [Buffer.from(x)]: a string is encoded, a buffer is copied. *)
Inductive BufferSource :=
| OfString (s : string)
| OfBuffer (b : Buffer).

Definition Buffer_from (src : BufferSource) : Buffer :=
  match src with
  | OfString s => list_byte_of_string s
  | OfBuffer b => b
  end.

(** [buf.toString('utf8')] *)
Definition toString_utf8 (b : Buffer) : string := string_of_list_byte b.

(** *** Hexadecimal *)

Definition hex_digit (n : N) : ascii :=
  if (n <? 10)%N then ascii_of_N (48 + n) else ascii_of_N (87 + n).

Definition hex_value (c : ascii) : option N :=
  let n := N_of_ascii c in
  if ((48 <=? n) && (n <=? 57))%N then Some (n - 48)%N
  else if ((97 <=? n) && (n <=? 102))%N then Some (n - 87)%N
  else if ((65 <=? n) && (n <=? 70))%N then Some (n - 55)%N
  else None.

(** [buf.toString('hex')] *)
Fixpoint toString_hex (b : Buffer) : string :=
  match b with
  | [] => ""
  | x :: r =>
      let n := Byte.to_N x in
      String (hex_digit (n / 16)) (String (hex_digit (n mod 16)) (toString_hex r))
  end.

(** [Buffer.from(str, 'hex')]: pairs of hex digits are decoded until the
    first pair that is not one; a trailing single character is dropped. *)
Fixpoint Buffer_from_hex (s : string) : Buffer :=
  match s with
  | String a (String b r) =>
      match hex_value a, hex_value b with
      | Some h, Some l => byte_of_N (h * 16 + l) :: Buffer_from_hex r
      | _, _ => []
      end
  | _ => []
  end.

(** *** Base64 *)

Definition b64_alphabet : string :=
  "ABCDEFGHIJKLMNOPQRSTUVWXYZabcdefghijklmnopqrstuvwxyz0123456789+/".

Definition b64_char (n : N) : ascii :=
  match String.get (N.to_nat n) b64_alphabet with
  | Some c => c
  | None => "="%char
  end.

(** The decoder's table: both the standard and the URL-safe alphabet are
    accepted, every other character has no value. *)
Definition unbase64 (c : ascii) : option N :=
  let n := N_of_ascii c in
  if ((65 <=? n) && (n <=? 90))%N then Some (n - 65)%N
  else if ((97 <=? n) && (n <=? 122))%N then Some (n - 71)%N
  else if ((48 <=? n) && (n <=? 57))%N then Some (n + 4)%N
  else if ((n =? 43) || (n =? 45))%N then Some 62%N
  else if ((n =? 47) || (n =? 95))%N then Some 63%N
  else None.

(** [buf.toString('base64')]: three bytes give four characters, a last
    group of one or two bytes is padded with '='. *)
Fixpoint toString_base64 (b : Buffer) : string :=
  match b with
  | [] => ""
  | [x] =>
      let x := Byte.to_N x in
      String (b64_char (x / 4)) (String (b64_char ((x mod 4) * 16)) "==")
  | [x; y] =>
      let x := Byte.to_N x in
      let y := Byte.to_N y in
      String (b64_char (x / 4))
        (String (b64_char ((x mod 4) * 16 + y / 16))
           (String (b64_char ((y mod 16) * 4)) "="))
  | x :: y :: z :: r =>
      let x := Byte.to_N x in
      let y := Byte.to_N y in
      let z := Byte.to_N z in
      String (b64_char (x / 4))
        (String (b64_char ((x mod 4) * 16 + y / 16))
           (String (b64_char ((y mod 16) * 4 + z / 64))
              (String (b64_char (z mod 64)) (toString_base64 r))))
  end.

(** The six-bit values of a base64 text: characters without a value are
    skipped, the first '=' ends the text. *)
Fixpoint sextets (s : string) : list N :=
  match s with
  | "" => []
  | String c r =>
      if Ascii.eqb c "=" then []
      else match unbase64 c with
           | Some v => v :: sextets r
           | None => sextets r
           end
  end.

Fixpoint bytes_of_sextets (l : list N) : Buffer :=
  match l with
  | a :: b :: c :: d :: r =>
      byte_of_N (a * 4 + b / 16)
        :: byte_of_N ((b mod 16) * 16 + c / 4)
        :: byte_of_N ((c mod 4) * 64 + d)
        :: bytes_of_sextets r
  | [a; b; c] =>
      [byte_of_N (a * 4 + b / 16); byte_of_N ((b mod 16) * 16 + c / 4)]
  | [a; b] => [byte_of_N (a * 4 + b / 16)]
  | _ => []
  end.

(** [Buffer.from(str, 'base64')] *)
Definition Buffer_from_base64 (s : string) : Buffer :=
  bytes_of_sextets (sextets s).

(** *** String helpers of the module *)

(** [str.replace(/c/g, d)] for a single character [c]. *)
Fixpoint replaceAll (c d : ascii) (s : string) : string :=
  match s with
  | "" => ""
  | String a r => String (if Ascii.eqb a c then d else a) (replaceAll c d r)
  end.

(** [str.replace(/c+$/, '')]: the trailing run of [c] is removed. *)
Fixpoint stripTrailing (c : ascii) (s : string) : string :=
  match s with
  | "" => ""
  | String a r =>
      match stripTrailing c r with
      | "" => if Ascii.eqb a c then "" else String a ""
      | r' => String a r'
      end
  end.

(** [while (str.length % 4) str += '=']: at most three rounds are needed. *)
Fixpoint padLoop (fuel : nat) (str : string) : string :=
  match fuel with
  | O => str
  | S fuel' =>
      if Nat.eqb (String.length str mod 4) 0 then str
      else padLoop fuel' (str ++ "=")%string
  end.

(** [str.split(sep)] for a single-character separator. The result is never
    empty: a string without separator is its own only segment. *)
Fixpoint split (sep : ascii) (s : string) : list string :=
  match s with
  | "" => [""]
  | String a r =>
      if Ascii.eqb a sep then "" :: split sep r
      else match split sep r with
           | seg :: segs => String a seg :: segs
           | [] => [String a ""]
           end
  end.

(** ** The module's encoding helpers *)

Definition base64UrlEncode (buf : BufferSource) : string :=
  stripTrailing "="
    (replaceAll "/" "_"
       (replaceAll "+" "-" (toString_base64 (Buffer_from buf)))).

Definition base64UrlDecode (str : string) : Buffer :=
  let str := replaceAll "_" "/" (replaceAll "-" "+" str) in
  let str := padLoop 3 str in
  Buffer_from_base64 str.

(** ** Values of the runtime *)

(** A parsed JSON text. Numbers are the integers: every number the module
    itself writes is a floored timestamp. *)
Inductive json :=
| JNull
| JBool (b : bool)
| JNum (n : Z)
| JStr (s : string)
| JArr (items : list json)
| JObj (fields : list (string * json)).

(** What a JavaScript function can throw here. *)
Inductive exn :=
| Error (message : string)   (* [new Error(message)] *)
| RangeError                 (* [crypto.timingSafeEqual] on unequal lengths *)
| TypeError                  (* a property of [null] *)
| SyntaxError                (* [JSON.parse] *)
| ENOENT.                    (* a file that does not exist *)

Inductive outcome (A : Type) :=
| Return (a : A)
| Throw (e : exn).

Arguments Return {A} a.
Arguments Throw {A} e.

(** The primitives the module takes from its runtime: the process-wide
    secret, the two cryptographic functions, JSON, and the string
    operations whose definition is Unicode's. *)
Class Platform := {
  (** [process.env.AUTH_SECRET || crypto.randomBytes(64).toString('hex')] *)
  SECRET : string;
  (** [crypto.createHmac('sha256', key).update(data).digest()] *)
  hmac_sha256 : string -> string -> Buffer;
  (** [crypto.scryptSync(password, salt, keylen)] *)
  scryptSync : string -> string -> nat -> Buffer;
  JSON_stringify : json -> string;
  (** [None] when [JSON.parse] throws *)
  JSON_parse : string -> option json;
  toLowerCase : string -> string;
  (** the number a string, array or object converts to in a comparison,
      [None] for NaN *)
  ToNumber : json -> option Z;
  (** whether [crypto.randomUUID] is defined *)
  has_randomUUID : bool
}.

(** *** Truthiness, properties and comparison *)

Definition falsy (s : string) : bool := String.eqb s "".

Definition truthy (v : json) : bool :=
  match v with
  | JNull => false
  | JBool b => b
  | JNum n => negb (n =? 0)%Z
  | JStr s => negb (falsy s)
  | JArr _ | JObj _ => true
  end.

(** [undefined] is [None]. *)
Definition truthy_opt (o : option json) : bool :=
  match o with
  | Some v => truthy v
  | None => false
  end.

Fixpoint obj_get (k : string) (fields : list (string * json)) : option json :=
  match fields with
  | [] => None
  | (k', v) :: r => if String.eqb k' k then Some v else obj_get k r
  end.

(** [fields[k] = v]: an existing key keeps its place. *)
Fixpoint obj_set (k : string) (v : json) (fields : list (string * json))
  : list (string * json) :=
  match fields with
  | [] => [(k, v)]
  | (k', v') :: r =>
      if String.eqb k' k then (k, v) :: r else (k', v') :: obj_set k v r
  end.

Fixpoint obj_remove (k : string) (fields : list (string * json))
  : list (string * json) :=
  match fields with
  | [] => []
  | (k', v) :: r =>
      if String.eqb k' k then obj_remove k r else (k', v) :: obj_remove k r
  end.

(** [Object.assign(target, source)] *)
Definition Object_assign (target source : list (string * json))
  : list (string * json) :=
  fold_left (fun t kv => obj_set (fst kv) (snd kv) t) source target.

(** [payload.k] for a name [k] that no prototype defines ([exp], [type],
    [sub]): own property of an object, [undefined] on every other value,
    a TypeError on [null]. *)
Definition get_prop (payload : json) (k : string) : outcome (option json) :=
  match payload with
  | JNull => Throw TypeError
  | JObj fields => Return (obj_get k fields)
  | _ => Return None
  end.

Definition option_eqb_str (o : option json) (s : string) : bool :=
  match o with
  | Some (JStr s') => String.eqb s' s
  | _ => false
  end.

Fixpoint Buffer_eqb (a b : Buffer) : bool :=
  match a, b with
  | [], [] => true
  | x :: a', y :: b' => Byte.eqb x y && Buffer_eqb a' b'
  | _, _ => false
  end.

(** [crypto.timingSafeEqual(a, b)] *)
Definition timingSafeEqual (a b : Buffer) : outcome bool :=
  if Nat.eqb (List.length a) (List.length b) then Return (Buffer_eqb a b)
  else Throw RangeError.

(** ** The persisted document *)

Module User.
Record t := mk {
  id : string;
  username : string;
  email : string;
  password : string;
  createdAt : Z
}.
Definition set_password (h : string) (u : t) : t :=
  mk (id u) (username u) (email u) h (createdAt u).
End User.

Module RefreshToken.
Record t := mk { token : string; userId : string; expiresAt : Z }.
End RefreshToken.

Module ResetToken.
Record t := mk { userId : string; tokenHash : string; expiresAt : Z }.
End ResetToken.

Record DB := mkDB {
  users : list User.t;
  refreshTokens : list RefreshToken.t;
  resetTokens : list ResetToken.t
}.

(** The values the public operations hand back. *)
Module PublicUser.
Record t := mk { id : string; username : string; email : string }.
End PublicUser.

Module UserInfo.
Record t := mk {
  id : string; username : string; email : string; createdAt : Z
}.
End UserInfo.

Module Session.
Record t := mk {
  accessToken : string; refreshToken : string; user : PublicUser.t
}.
End Session.

Module ResetGrant.
Record t := mk { resetToken : string; expiresAt : Z }.
End ResetGrant.

(** ** The world an operation runs in

    [file] is the document in [squeeble_db.json] ([None] while the file does
    not exist); the text of the file is [JSON.stringify] of the document and
    is read back with [JSON.parse], which the model identifies with the
    document. [_db] is the instance's cache [this._db]. [clock] lists the
    successive results of [Math.floor(Date.now() / 1000)] and [entropy] the
    bytes of the random generator; [reads] and [drawn] count what has been
    used. *)
Record World := mkWorld {
  file : option DB;
  _db : option DB;
  clock : nat -> Z;
  reads : nat;
  entropy : nat -> byte;
  drawn : nat
}.

Definition M (A : Type) := World -> outcome A * World.

Definition ret {A} (a : A) : M A := fun w => (Return a, w).

Definition throw {A} (e : exn) : M A := fun w => (Throw e, w).

Definition bind {A B} (m : M A) (k : A -> M B) : M B :=
  fun w =>
    match m w with
    | (Return a, w') => k a w'
    | (Throw e, w') => (Throw e, w')
    end.

(** [try { body } catch { handler }] *)
Definition try_catch {A} (body : M A) (handler : exn -> M A) : M A :=
  fun w =>
    match body w with
    | (Return a, w') => (Return a, w')
    | (Throw e, w') => handler e w'
    end.

(** A synchronous computation that touches no state. *)
Definition lift {A} (o : outcome A) : M A := fun w => (o, w).

Declare Scope js_scope.
Delimit Scope js_scope with js.
Notation "x <- m ;; k" := (bind m (fun x => k))
  (at level 61, m at next level, right associativity) : js_scope.
Notation "m ;; k" := (bind m (fun _ => k))
  (at level 61, right associativity) : js_scope.
Local Open Scope js_scope.

Definition nowSeconds : M Z :=
  fun w =>
    (Return (clock w (reads w)),
     mkWorld (file w) (_db w) (clock w) (S (reads w)) (entropy w) (drawn w)).

(** [crypto.randomBytes(n)] *)
Definition randomBytes (n : nat) : M Buffer :=
  fun w =>
    (Return (map (fun i => entropy w (drawn w + i)) (seq 0 n)),
     mkWorld (file w) (_db w) (clock w) (reads w) (entropy w) (drawn w + n)).

Definition fs_access : M unit :=
  fun w =>
    match file w with
    | Some _ => (Return tt, w)
    | None => (Throw ENOENT, w)
    end.

Definition fs_readFile : M DB :=
  fun w =>
    match file w with
    | Some d => (Return d, w)
    | None => (Throw ENOENT, w)
    end.

Definition fs_writeFile (d : DB) : M unit :=
  fun w =>
    (Return tt,
     mkWorld (Some d) (_db w) (clock w) (reads w) (entropy w) (drawn w)).

(** Reading [this._db.<collection>]: a TypeError while [this._db] is
    [null]. *)
Definition this_db : M DB :=
  fun w =>
    match _db w with
    | Some d => (Return d, w)
    | None => (Throw TypeError, w)
    end.

Definition set_this_db (d : option DB) : M unit :=
  fun w =>
    (Return tt,
     mkWorld (file w) d (clock w) (reads w) (entropy w) (drawn w)).

(** ** The class [Database] *)

(** Assigning to a property of the element that [find] returned: the
    first element that satisfies [p] is changed where it stands. *)
Fixpoint update_first {A} (p : A -> bool) (f : A -> A) (l : list A)
  : list A :=
  match l with
  | [] => []
  | x :: r => if p x then f x :: r else x :: update_first p f r
  end.

(** A property whose value may be [undefined]: [JSON.stringify] leaves such
    a property out. *)
Definition field (k : string) (o : option json) : list (string * json) :=
  match o with
  | Some v => [(k, v)]
  | None => []
  end.

Section Database.
Context {P : Platform}.

Definition ACCESS_TOKEN_EXP : Z := 15 * 60.
Definition REFRESH_TOKEN_EXP : Z := 7 * 24 * 3600.
Definition RESET_TOKEN_EXP : Z := 60 * 60.

Definition sign (data : string) : Buffer := hmac_sha256 SECRET data.

(** [nowSeconds() > v] for a property value [v]: a number is compared as
    it is, a boolean or [null] as 1, 0 and 0, the rest after the runtime's
    conversion; a comparison with NaN is false. *)
Definition gt_value (now : Z) (v : option json) : bool :=
  match v with
  | None => false
  | Some (JNum n) => (now >? n)%Z
  | Some (JBool b) => (now >? (if b then 1 else 0))%Z
  | Some JNull => (now >? 0)%Z
  | Some v =>
      match ToNumber v with
      | Some n => (now >? n)%Z
      | None => false
      end
  end.

(** [crypto.randomUUID()]: sixteen random bytes with the version and
    variant bits of a version 4 UUID, written 8-4-4-4-12. *)
Definition uuid_of_bytes (b : Buffer) : string :=
  let v6 := byte_of_N (N.lor (N.land (Byte.to_N (nth 6 b x00)) 15) 64) in
  let v8 := byte_of_N (N.lor (N.land (Byte.to_N (nth 8 b x00)) 63) 128) in
  (toString_hex (firstn 4 b) ++ "-"
     ++ toString_hex (firstn 2 (skipn 4 b)) ++ "-"
     ++ toString_hex (v6 :: firstn 1 (skipn 7 b)) ++ "-"
     ++ toString_hex (v8 :: firstn 1 (skipn 9 b)) ++ "-"
     ++ toString_hex (firstn 6 (skipn 10 b)))%string.

Definition randomUUID : M string :=
  b <- randomBytes 16 ;;
  ret (uuid_of_bytes b).

Definition _load : M unit :=
  text <- fs_readFile ;;
  set_this_db (Some text).

(** Every caller has loaded [this._db] before it saves. *)
Definition _save : M unit :=
  d <- this_db ;;
  fs_writeFile d.

Definition init : M unit :=
  try_catch fs_access (fun _ => fs_writeFile (mkDB [] [] [])) ;;
  _load.

Definition _hashPassword (password : string) : M string :=
  saltBytes <- randomBytes 16 ;;
  let salt := toString_hex saltBytes in
  let derived := toString_hex (scryptSync password salt 64) in
  ret (salt ++ "$" ++ derived)%string.

(** A part that the destructuring leaves [undefined] is [None]. *)
Definition _verifyPassword (stored supplied : string) : outcome bool :=
  if falsy stored || falsy supplied then Return false
  else
    let parts := split "$" stored in
    let salt := nth_error parts 0 in
    let derivedHex := nth_error parts 1 in
    match salt, derivedHex with
    | Some salt, Some derivedHex =>
        if falsy salt || falsy derivedHex then Return false
        else
          let derivedSupplied := scryptSync supplied salt 64 in
          let storedBuf := Buffer_from_hex derivedHex in
          timingSafeEqual storedBuf derivedSupplied
    | _, _ => Return false
    end.

Definition _createToken (payloadObj : list (string * json))
    (expiresInSeconds : Z) : M string :=
  let header := JObj [("alg", JStr "HS256"); ("typ", JStr "JWT")] in
  iat <- nowSeconds ;;
  now <- nowSeconds ;;
  let payload :=
    JObj (Object_assign (Object_assign [] payloadObj)
            [("iat", JNum iat); ("exp", JNum (now + expiresInSeconds))]) in
  let headerB := base64UrlEncode (OfString (JSON_stringify header)) in
  let payloadB := base64UrlEncode (OfString (JSON_stringify payload)) in
  let signature :=
    base64UrlEncode (OfBuffer (sign (headerB ++ "." ++ payloadB)%string)) in
  ret (headerB ++ "." ++ payloadB ++ "." ++ signature)%string.

(** The body of the [try] block of [_verifyToken]. A segment that the
    destructuring leaves [undefined] is [None]; it is falsy like the empty
    string. *)
Definition _verifyToken_body (token : string) : M (option json) :=
  let parts := split "." token in
  let h := nth_error parts 0 in
  let p := nth_error parts 1 in
  let s := nth_error parts 2 in
  match h, p, s with
  | Some h, Some p, Some s =>
      if falsy h || falsy p || falsy s then ret None
      else
        let expectedSig :=
          base64UrlEncode (OfBuffer (sign (h ++ "." ++ p)%string)) in
        let sigBuf := base64UrlDecode s in
        let expectedBuf := base64UrlDecode expectedSig in
        same <- lift (timingSafeEqual sigBuf expectedBuf) ;;
        if negb same then ret None
        else
          payload <-
            lift (match JSON_parse (toString_utf8 (base64UrlDecode p)) with
                  | Some v => Return v
                  | None => Throw SyntaxError
                  end) ;;
          exp <- lift (get_prop payload "exp") ;;
          expired <-
            (if truthy_opt exp
             then now <- nowSeconds ;; ret (gt_value now exp)
             else ret false) ;;
          if (expired : bool) then ret None else ret (Some payload)
  | _, _, _ => ret None
  end.

Definition _verifyToken (token : string) : M (option json) :=
  try_catch (_verifyToken_body token) (fun _ => ret None).

Definition register (username email password : string)
  : M PublicUser.t :=
  if falsy username || falsy email || falsy password
  then throw (Error "username, email and password required")
  else
    let username := toLowerCase username in
    let email := toLowerCase email in
    _load ;;
    db <- this_db ;;
    match find (fun u => String.eqb (User.username u) username) (users db)
    with
    | Some _ => throw (Error "username_taken")
    | None =>
        match find (fun u => String.eqb (User.email u) email) (users db)
        with
        | Some _ => throw (Error "email_taken")
        | None =>
            id <- (if has_randomUUID then randomUUID
                   else b <- randomBytes 16 ;; ret (toString_hex b)) ;;
            hashed <- _hashPassword password ;;
            now <- nowSeconds ;;
            let user := User.mk id username email hashed now in
            db <- this_db ;;
            set_this_db
              (Some (mkDB (users db ++ [user]) (refreshTokens db)
                       (resetTokens db))) ;;
            _save ;;
            ret (PublicUser.mk id username email)
        end
    end.

Definition authenticate (usernameOrEmail password : string)
  : M Session.t :=
  if falsy usernameOrEmail || falsy password
  then throw (Error "credentials required")
  else
    let usernameOrEmail := toLowerCase usernameOrEmail in
    _load ;;
    db <- this_db ;;
    match find (fun u => String.eqb (User.username u) usernameOrEmail
                         || String.eqb (User.email u) usernameOrEmail)
            (users db)
    with
    | None => throw (Error "invalid_credentials")
    | Some user =>
        ok <- lift (_verifyPassword (User.password user) password) ;;
        if negb ok then throw (Error "invalid_credentials")
        else
          accessToken <-
            _createToken [("sub", JStr (User.id user));
                          ("type", JStr "access")] ACCESS_TOKEN_EXP ;;
          refreshToken <-
            _createToken [("sub", JStr (User.id user));
                          ("type", JStr "refresh")] REFRESH_TOKEN_EXP ;;
          now <- nowSeconds ;;
          db <- this_db ;;
          set_this_db
            (Some (mkDB (users db)
                     (refreshTokens db
                        ++ [RefreshToken.mk refreshToken (User.id user)
                              (now + REFRESH_TOKEN_EXP)])
                     (resetTokens db))) ;;
          _save ;;
          ret (Session.mk accessToken refreshToken
                 (PublicUser.mk (User.id user) (User.username user)
                    (User.email user)))
    end.

Definition verifyAccessToken (token : string) : M (option json) :=
  payload <- _verifyToken token ;;
  match payload with
  | None => ret None
  | Some v =>
      if negb (truthy v) then ret None
      else
        type <- lift (get_prop v "type") ;;
        if negb (option_eqb_str type "access") then ret None
        else ret (Some v)
  end.

Definition refreshAccessToken (refreshToken : string) : M string :=
  if falsy refreshToken then throw (Error "missing_refresh_token")
  else
    _load ;;
    db <- this_db ;;
    match find (fun r => String.eqb (RefreshToken.token r) refreshToken)
            (refreshTokens db)
    with
    | None => throw (Error "invalid_refresh_token")
    | Some stored =>
        now <- nowSeconds ;;
        if (now >? RefreshToken.expiresAt stored)%Z then
          db <- this_db ;;
          set_this_db
            (Some (mkDB (users db)
                     (filter
                        (fun r =>
                           negb (String.eqb (RefreshToken.token r)
                                   refreshToken))
                        (refreshTokens db))
                     (resetTokens db))) ;;
          _save ;;
          throw (Error "refresh_token_expired")
        else
          payload <- _verifyToken refreshToken ;;
          match payload with
          | None => throw (Error "invalid_refresh_token")
          | Some v =>
              if negb (truthy v) then throw (Error "invalid_refresh_token")
              else
                type <- lift (get_prop v "type") ;;
                if negb (option_eqb_str type "refresh")
                then throw (Error "invalid_refresh_token")
                else
                  sub <- lift (get_prop v "sub") ;;
                  _createToken (field "sub" sub ++ [("type", JStr "access")])
                    ACCESS_TOKEN_EXP
          end
    end.

Definition revokeRefreshToken (refreshToken : string) : M unit :=
  _load ;;
  db <- this_db ;;
  set_this_db
    (Some (mkDB (users db)
             (filter
                (fun r =>
                   negb (String.eqb (RefreshToken.token r) refreshToken))
                (refreshTokens db))
             (resetTokens db))) ;;
  _save.

Definition changePassword (userId oldPassword newPassword : string)
  : M bool :=
  if falsy userId || falsy oldPassword || falsy newPassword
  then throw (Error "missing_params")
  else
    _load ;;
    db <- this_db ;;
    match find (fun u => String.eqb (User.id u) userId) (users db) with
    | None => throw (Error "user_not_found")
    | Some user =>
        ok <- lift (_verifyPassword (User.password user) oldPassword) ;;
        if negb ok then throw (Error "invalid_current_password")
        else
          hashed <- _hashPassword newPassword ;;
          (* [user] is the object held in [this._db.users] *)
          db <- this_db ;;
          set_this_db
            (Some (mkDB
                     (update_first
                        (fun u => String.eqb (User.id u) userId)
                        (User.set_password hashed) (users db))
                     (refreshTokens db) (resetTokens db))) ;;
          _save ;;
          ret true
    end.

Definition generateResetToken (email : string) : M ResetGrant.t :=
  if falsy email then throw (Error "email required")
  else
    let email := toLowerCase email in
    _load ;;
    db <- this_db ;;
    match find (fun u => String.eqb (User.email u) email) (users db) with
    | None => throw (Error "user_not_found")
    | Some user =>
        rawBytes <- randomBytes 32 ;;
        let rawToken := toString_hex rawBytes in
        let hashed := toString_hex (hmac_sha256 SECRET rawToken) in
        now <- nowSeconds ;;
        let expiresAt := (now + RESET_TOKEN_EXP)%Z in
        db <- this_db ;;
        set_this_db
          (Some (mkDB (users db) (refreshTokens db)
                   (resetTokens db
                      ++ [ResetToken.mk (User.id user) hashed expiresAt]))) ;;
        _save ;;
        ret (ResetGrant.mk rawToken expiresAt)
    end.

Definition verifyResetToken (rawToken : string) : M (option string) :=
  if falsy rawToken then ret None
  else
    _load ;;
    let hashed := toString_hex (hmac_sha256 SECRET rawToken) in
    db <- this_db ;;
    match find (fun r => String.eqb (ResetToken.tokenHash r) hashed)
            (resetTokens db)
    with
    | None => ret None
    | Some rec =>
        now <- nowSeconds ;;
        if (now >? ResetToken.expiresAt rec)%Z then
          db <- this_db ;;
          set_this_db
            (Some (mkDB (users db) (refreshTokens db)
                     (filter
                        (fun r =>
                           negb (String.eqb (ResetToken.tokenHash r) hashed))
                        (resetTokens db)))) ;;
          _save ;;
          ret None
        else ret (Some (ResetToken.userId rec))
    end.

Definition consumeResetToken (rawToken newPassword : string) : M bool :=
  userId <- verifyResetToken rawToken ;;
  match userId with
  | None => throw (Error "invalid_reset_token")
  | Some userId =>
      if falsy userId then throw (Error "invalid_reset_token")
      else
        changePassword userId newPassword newPassword ;;
        let hashed := toString_hex (hmac_sha256 SECRET rawToken) in
        db <- this_db ;;
        set_this_db
          (Some (mkDB (users db) (refreshTokens db)
                   (filter
                      (fun r =>
                         negb (String.eqb (ResetToken.tokenHash r) hashed)
                         && negb (String.eqb (ResetToken.userId r) userId))
                      (resetTokens db)))) ;;
        _save ;;
        ret true
  end.

Definition getUserById (id : string) : M (option UserInfo.t) :=
  _load ;;
  db <- this_db ;;
  match find (fun x => String.eqb (User.id x) id) (users db) with
  | None => ret None
  | Some u =>
      ret (Some (UserInfo.mk (User.id u) (User.username u) (User.email u)
                   (User.createdAt u)))
  end.

Definition cleanupExpired : M unit :=
  _load ;;
  now <- nowSeconds ;;
  db <- this_db ;;
  set_this_db
    (Some (mkDB (users db)
             (filter (fun r => (RefreshToken.expiresAt r >? now)%Z)
                (refreshTokens db))
             (resetTokens db))) ;;
  db <- this_db ;;
  set_this_db
    (Some (mkDB (users db) (refreshTokens db)
             (filter (fun r => (ResetToken.expiresAt r >? now)%Z)
                (resetTokens db)))) ;;
  _save.

(** *** The calls a client can make *)

Inductive call :=
| Init
| Register (username email password : string)
| Authenticate (usernameOrEmail password : string)
| VerifyAccessToken (token : string)
| RefreshAccessToken (refreshToken : string)
| RevokeRefreshToken (refreshToken : string)
| ChangePassword (userId oldPassword newPassword : string)
| GenerateResetToken (email : string)
| VerifyResetToken (rawToken : string)
| ConsumeResetToken (rawToken newPassword : string)
| GetUserById (id : string)
| CleanupExpired.

(** The world a call leaves behind, whether it returns or throws. *)
Definition exec (c : call) (w : World) : World :=
  match c with
  | Init => snd (init w)
  | Register u e p => snd (register u e p w)
  | Authenticate u p => snd (authenticate u p w)
  | VerifyAccessToken t => snd (verifyAccessToken t w)
  | RefreshAccessToken t => snd (refreshAccessToken t w)
  | RevokeRefreshToken t => snd (revokeRefreshToken t w)
  | ChangePassword i o n => snd (changePassword i o n w)
  | GenerateResetToken e => snd (generateResetToken e w)
  | VerifyResetToken t => snd (verifyResetToken t w)
  | ConsumeResetToken t p => snd (consumeResetToken t p w)
  | GetUserById i => snd (getUserById i w)
  | CleanupExpired => snd (cleanupExpired w)
  end.

(** *** The uniqueness invariant of the users collection *)

Definition lowercased (u : User.t) : Prop :=
  toLowerCase (User.username u) = User.username u
  /\ toLowerCase (User.email u) = User.email u.

Definition users_unique (d : DB) : Prop :=
  NoDup (map (fun u => toLowerCase (User.username u)) (users d))
  /\ NoDup (map (fun u => toLowerCase (User.email u)) (users d))
  /\ Forall lowercased (users d).

Definition persisted_unique (w : World) : Prop :=
  match file w with
  | Some d => users_unique d
  | None => True
  end.

End Database.

(** ** A runnable platform

    One choice of the runtime primitives on which the model computes: a JSON
    printer and reader for texts without white space or escapes, ASCII
    case folding, and two keyed checksums standing for HMAC-SHA256 and
    scrypt. The theorems below hold for every platform; this one runs them
    on concrete inputs. *)
Module Fixture.

Definition checksum (len : nat) (text : string) : Buffer :=
  map (fun i =>
         byte_of_N
           (fold_left
              (fun acc c => (acc * 33 + Byte.to_N c + N.of_nat i) mod 65521)%N
              (list_byte_of_string text) (N.of_nat (S i))))
    (seq 0 len).

Definition lower_ascii (c : ascii) : ascii :=
  let n := N_of_ascii c in
  if ((65 <=? n) && (n <=? 90))%N then ascii_of_N (n + 32) else c.

Fixpoint lower (s : string) : string :=
  match s with
  | "" => ""
  | String c r => String (lower_ascii c) (lower r)
  end.

(** The double quote. *)
Definition quote : ascii := ascii_of_N 34.

Definition is_digit (c : ascii) : bool :=
  let n := N_of_ascii c in ((48 <=? n) && (n <=? 57))%N.

Fixpoint print_Z_digits (fuel : nat) (n : Z) (acc : string) : string :=
  match fuel with
  | O => acc
  | S fuel' =>
      let d := ascii_of_N (48 + Z.to_N (n mod 10)) in
      if (n <? 10)%Z then String d acc
      else print_Z_digits fuel' (n / 10) (String d acc)
  end.

Definition print_Z (n : Z) : string :=
  if (n <? 0)%Z
  then String "-" (print_Z_digits (S (Z.to_nat (Z.log2 (- n)))) (- n) "")
  else print_Z_digits (S (Z.to_nat (Z.log2 n))) n "".

Fixpoint print (v : json) : string :=
  match v with
  | JNull => "null"
  | JBool true => "true"
  | JBool false => "false"
  | JNum n => print_Z n
  | JStr s => String quote (s ++ String quote "")
  | JArr items =>
      let fix go l :=
        match l with
        | [] => ""
        | [x] => print x
        | x :: r => print x ++ "," ++ go r
        end%string in
      ("[" ++ go items ++ "]")%string
  | JObj fields =>
      let fix go l :=
        match l with
        | [] => ""
        | [(k, x)] => String quote (k ++ String quote (":" ++ print x))
        | (k, x) :: r =>
            String quote (k ++ String quote (":" ++ print x ++ "," ++ go r))
        end%string in
      ("{" ++ go fields ++ "}")%string
  end.

(** The text up to the next double quote, and what follows it. *)
Fixpoint read_quoted (s : string) : option (string * string) :=
  match s with
  | "" => None
  | String c r =>
      if Ascii.eqb c quote then Some ("", r)
      else match read_quoted r with
           | Some (t, rest) => Some (String c t, rest)
           | None => None
           end
  end.

Fixpoint read_digits (s : string) (acc : Z) : Z * string :=
  match s with
  | String c r =>
      if is_digit c
      then read_digits r (10 * acc + Z.of_N (N_of_ascii c - 48))
      else (acc, s)
  | "" => (acc, s)
  end.

Definition read_literal (lit : string) (v : json) (s : string)
  : option (json * string) :=
  if String.prefix lit s
  then Some (v, substring (String.length lit)
                  (String.length s - String.length lit) s)
  else None.

Fixpoint read_value (fuel : nat) (s : string) : option (json * string) :=
  match fuel with
  | O => None
  | S fuel' =>
      match s with
      | "" => None
      | String c r =>
          if Ascii.eqb c "n" then read_literal "null" JNull s
          else if Ascii.eqb c "t" then read_literal "true" (JBool true) s
          else if Ascii.eqb c "f" then read_literal "false" (JBool false) s
          else if Ascii.eqb c quote then
            match read_quoted r with
            | Some (t, rest) => Some (JStr t, rest)
            | None => None
            end
          else if Ascii.eqb c "-" then
            match r with
            | String d _ =>
                if is_digit d
                then let (n, rest) := read_digits r 0 in
                     Some (JNum (- n), rest)
                else None
            | "" => None
            end
          else if is_digit c then
            let (n, rest) := read_digits s 0 in Some (JNum n, rest)
          else if Ascii.eqb c "[" then
            match r with
            | String "]" rest => Some (JArr [], rest)
            | _ =>
                match read_items fuel' r with
                | Some (items, rest) => Some (JArr items, rest)
                | None => None
                end
            end
          else if Ascii.eqb c "{" then
            match r with
            | String "}" rest => Some (JObj [], rest)
            | _ =>
                match read_fields fuel' r with
                | Some (fields, rest) => Some (JObj fields, rest)
                | None => None
                end
            end
          else None
      end
  end
with read_items (fuel : nat) (s : string)
  : option (list json * string) :=
  match fuel with
  | O => None
  | S fuel' =>
      match read_value fuel' s with
      | Some (v, String "," rest) =>
          match read_items fuel' rest with
          | Some (vs, rest') => Some (v :: vs, rest')
          | None => None
          end
      | Some (v, String "]" rest) => Some ([v], rest)
      | _ => None
      end
  end
with read_fields (fuel : nat) (s : string)
  : option (list (string * json) * string) :=
  match fuel with
  | O => None
  | S fuel' =>
      match s with
      | String c r =>
          if negb (Ascii.eqb c quote) then None
          else
            match read_quoted r with
            | Some (k, String ":" r') =>
                match read_value fuel' r' with
                | Some (v, String "," rest) =>
                    match read_fields fuel' rest with
                    | Some (fs, rest') =>
                        (* a repeated key keeps its first place and its
                           last value *)
                        match obj_get k fs with
                        | Some v' =>
                            Some ((k, v') :: obj_remove k fs, rest')
                        | None => Some ((k, v) :: fs, rest')
                        end
                    | None => None
                    end
                | Some (v, String "}" rest) => Some ([(k, v)], rest)
                | _ => None
                end
            | _ => None
            end
      | "" => None
      end
  end.

Definition parse (s : string) : option json :=
  match read_value (S (String.length s)) s with
  | Some (v, "") => Some v
  | _ => None
  end.

#[export] Instance platform : Platform := {|
  SECRET := "fixture-secret";
  hmac_sha256 := fun key data => checksum 32 (key ++ ":" ++ data);
  scryptSync := fun password salt keylen =>
                  checksum keylen (salt ++ ":" ++ password);
  JSON_stringify := print;
  JSON_parse := parse;
  toLowerCase := lower;
  ToNumber := fun _ => None;
  has_randomUUID := true
|}.

(** A world before [init]: no file, a clock that starts at 1700000000
    and gains a second per reading. *)
Definition fresh : World :=
  mkWorld None None (fun n => 1700000000 + Z.of_nat n)%Z 0
    (fun n => byte_of_N (N.of_nat (7 * n + 3))) 0.

(** The same world with a clock that stands at the first second of the
    epoch. *)
Definition second_one : World :=
  mkWorld None None (fun _ => 1%Z) 0
    (fun n => byte_of_N (N.of_nat (7 * n + 3))) 0.

Definition token_or_empty (r : outcome string * World) : string :=
  match fst r with
  | Return t => t
  | Throw _ => ""
  end.

(** An access and a refresh token issued in [fresh]. *)
Definition access_token : string :=
  Eval vm_compute in
    token_or_empty
      (_createToken [("sub", JStr "u1"); ("type", JStr "access")]
         ACCESS_TOKEN_EXP fresh).

Definition refresh_token : string :=
  Eval vm_compute in
    token_or_empty
      (_createToken [("sub", JStr "u1"); ("type", JStr "refresh")]
         REFRESH_TOKEN_EXP fresh).

(** A short history: the store is set up, Vin registers and signs in, and
    asks for a reset token. *)
Definition ready : World :=
  snd (init fresh).

Definition registered : World :=
  snd (register "Vin" "V@Example.com" "secret" ready).

Definition registered_db : DB :=
  Eval vm_compute in
    match file registered with
    | Some d => d
    | None => mkDB [] [] []
    end.

Definition vin : User.t :=
  Eval vm_compute in
    match users registered_db with
    | u :: _ => u
    | [] => User.mk "" "" "" "" 0
    end.

Definition signed_in : World :=
  snd (authenticate "vin" "secret" registered).

Definition signed_in_db : DB :=
  Eval vm_compute in
    match file signed_in with
    | Some d => d
    | None => mkDB [] [] []
    end.

Definition session_record : RefreshToken.t :=
  Eval vm_compute in
    match refreshTokens signed_in_db with
    | r :: _ => r
    | [] => RefreshToken.mk "" "" 0
    end.

(** The same file eight days later. *)
Definition eight_days_later : World :=
  mkWorld (file signed_in) (_db signed_in)
    (fun n => 1700000000 + 8 * 24 * 3600 + Z.of_nat n)%Z 0
    (entropy signed_in) (drawn signed_in).

Definition reset_requested : World :=
  snd (generateResetToken "v@example.com" signed_in).

Definition reset_db : DB :=
  Eval vm_compute in
    match file reset_requested with
    | Some d => d
    | None => mkDB [] [] []
    end.

Definition reset_record : ResetToken.t :=
  Eval vm_compute in
    match resetTokens reset_db with
    | r :: _ => r
    | [] => ResetToken.mk "" "" 0
    end.

Definition raw_reset_token : string :=
  Eval vm_compute in
    match fst (generateResetToken "v@example.com" signed_in) with
    | Return g => ResetGrant.resetToken g
    | Throw _ => ""
    end.

End Fixture.

(** * Notions used to state the properties *)

(** The six-bit groups of a buffer, as base64 cuts them. *)
Fixpoint sextets_of_bytes (b : Buffer) : list N :=
  match b with
  | [] => []
  | [x] =>
      let x := Byte.to_N x in
      [x / 4; (x mod 4) * 16]%N
  | [x; y] =>
      let x := Byte.to_N x in
      let y := Byte.to_N y in
      [x / 4; (x mod 4) * 16 + y / 16; (y mod 16) * 4]%N
  | x :: y :: z :: r =>
      let x := Byte.to_N x in
      let y := Byte.to_N y in
      let z := Byte.to_N z in
      (x / 4 :: (x mod 4) * 16 + y / 16 :: (y mod 16) * 4 + z / 64
         :: z mod 64 :: sextets_of_bytes r)%N
  end.

Fixpoint chars (l : list ascii) : string :=
  match l with
  | [] => ""
  | c :: r => String c (chars r)
  end.

Definition equals (k : nat) : string := chars (repeat "="%char k).

(** The character of a six-bit value in the URL-safe alphabet. *)
Definition url_char (n : N) : ascii :=
  let c := b64_char n in
  let c := if Ascii.eqb c "+" then "-"%char else c in
  if Ascii.eqb c "/" then "_"%char else c.

(** What [base64UrlDecode] makes of a character before it decodes. *)
Definition std_char (c : ascii) : ascii :=
  let c := if Ascii.eqb c "-" then "+"%char else c in
  if Ascii.eqb c "_" then "/"%char else c.

(** The number of '=' that [toString('base64')] appends. *)
Fixpoint padding (b : Buffer) : nat :=
  match b with
  | [] => 0
  | [_] => 2
  | [_; _] => 1
  | _ :: _ :: _ :: r => padding r
  end.

Definition url_text (s : string) : string :=
  replaceAll "/" "_" (replaceAll "+" "-" s).

Definition std_text (s : string) : string :=
  replaceAll "_" "/" (replaceAll "-" "+" s).

(** One more reading of the clock. *)
Definition tick (w : World) : World :=
  mkWorld (file w) (_db w) (clock w) (S (reads w)) (entropy w) (drawn w).

(** The world with another file and cache. *)
Definition with_store (f d : option DB) (w : World) : World :=
  mkWorld f d (clock w) (reads w) (entropy w) (drawn w).

(** The world with another cache. *)
Definition with_cache (d : option DB) (w : World) : World :=
  mkWorld (file w) d (clock w) (reads w) (entropy w) (drawn w).

Section Notions.
Context {P : Platform}.

Definition jwt_header : json :=
  JObj [("alg", JStr "HS256"); ("typ", JStr "JWT")].

(** The token [_createToken] writes for a finished payload. *)
Definition token_of (payload : json) : string :=
  let headerB := base64UrlEncode (OfString (JSON_stringify jwt_header)) in
  let payloadB := base64UrlEncode (OfString (JSON_stringify payload)) in
  let signature :=
    base64UrlEncode (OfBuffer (sign (headerB ++ "." ++ payloadB)%string)) in
  (headerB ++ "." ++ payloadB ++ "." ++ signature)%string.

(** The payload [_createToken] signs, read at clock readings [iat] and
    [now]. *)
Definition payload_of (payloadObj : list (string * json))
    (expiresInSeconds iat now : Z) : list (string * json) :=
  Object_assign (Object_assign [] payloadObj)
    [("iat", JNum iat); ("exp", JNum (now + expiresInSeconds))].

(** The cache holds unique users. *)
Definition cache_unique (w : World) : Prop :=
  match _db w with
  | Some d => users_unique d
  | None => True
  end.

(** File and cache both hold unique users. *)
Definition consistent (w : World) : Prop :=
  persisted_unique w /\ cache_unique w.

(** A computation that keeps file and cache unique. *)
Definition keeps {A} (m : M A) : Prop :=
  forall w, consistent w -> consistent (snd (m w)).

End Notions.

(** ** Notions for the properties of the whole store *)

(** The hexadecimal digits of a buffer, two for a byte. *)
Fixpoint hex_chars (b : Buffer) : list ascii :=
  match b with
  | [] => []
  | x :: r =>
      hex_digit (Byte.to_N x / 16) :: hex_digit (Byte.to_N x mod 16)
        :: hex_chars r
  end.

(** The bytes [crypto.randomBytes(n)] hands out in [w]. *)
Definition drawn_bytes (w : World) (n : nat) : Buffer :=
  map (fun i => entropy w (drawn w + i)) (seq 0 n).

(** The world after [n] random bytes have been handed out. *)
Definition skip_bytes (n : nat) (w : World) : World :=
  mkWorld (file w) (_db w) (clock w) (reads w) (entropy w) (drawn w + n).

(** What [getUserById] shows of a user, which is all of a user that no
    operation changes. *)
Definition user_info (u : User.t) : UserInfo.t :=
  UserInfo.mk (User.id u) (User.username u) (User.email u) (User.createdAt u).

Definition public_part (u : User.t) : PublicUser.t :=
  PublicUser.mk (User.id u) (User.username u) (User.email u).

(** A character of the URL-safe alphabet: a letter, a digit, '-' or '_'. *)
Definition url_safe (c : ascii) : bool :=
  let n := N_of_ascii c in
  (((65 <=? n) && (n <=? 90)) || ((97 <=? n) && (n <=? 122))
   || ((48 <=? n) && (n <=? 57)) || (n =? 45) || (n =? 95))%N.

Definition threw {A} (r : outcome A * World) : bool :=
  match fst r with
  | Throw _ => true
  | Return _ => false
  end.

(** The users in the file, when there is a file. *)
Definition stored_users (w : World) : option (list User.t) :=
  option_map users (file w).

Section MoreNotions.
Context {P : Platform}.

(** The stored form [_hashPassword] builds from the bytes of a salt. *)
Definition stored_form (saltBytes : Buffer) (password : string) : string :=
  let salt := toString_hex saltBytes in
  (salt ++ "$" ++ toString_hex (scryptSync password salt 64))%string.

(** [scryptSync] returns as many bytes as it is asked for. *)
Definition scrypt_sized : Prop :=
  forall password salt keylen,
    List.length (scryptSync password salt keylen) = keylen.

(** The identifier [register] gives a new user in [w]. *)
Definition new_user_id (w : World) : string :=
  if has_randomUUID then uuid_of_bytes (drawn_bytes w 16)
  else toString_hex (drawn_bytes w 16).

(** The record [register] appends in [w]. *)
Definition registered_user (username email password : string) (w : World)
  : User.t :=
  User.mk (new_user_id w) (toLowerCase username) (toLowerCase email)
    (stored_form (drawn_bytes (skip_bytes 16 w) 16) password)
    (clock w (reads w)).

(** The two tokens [authenticate] issues in [w] for a user id. *)
Definition access_fields (id : string) (w : World) : list (string * json) :=
  payload_of [("sub", JStr id); ("type", JStr "access")] ACCESS_TOKEN_EXP
    (clock w (reads w)) (clock w (S (reads w))).

Definition refresh_fields (id : string) (w : World) : list (string * json) :=
  payload_of [("sub", JStr id); ("type", JStr "refresh")] REFRESH_TOKEN_EXP
    (clock w (S (S (reads w)))) (clock w (S (S (S (reads w))))).

(** Whether a call throws. *)
Definition fails (c : call) (w : World) : bool :=
  match c with
  | Init => threw (init w)
  | Register u e p => threw (register u e p w)
  | Authenticate u p => threw (authenticate u p w)
  | VerifyAccessToken t => threw (verifyAccessToken t w)
  | RefreshAccessToken t => threw (refreshAccessToken t w)
  | RevokeRefreshToken t => threw (revokeRefreshToken t w)
  | ChangePassword i o n => threw (changePassword i o n w)
  | GenerateResetToken e => threw (generateResetToken e w)
  | VerifyResetToken t => threw (verifyResetToken t w)
  | ConsumeResetToken t p => threw (consumeResetToken t p w)
  | GetUserById i => threw (getUserById i w)
  | CleanupExpired => threw (cleanupExpired w)
  end.

(** [JSON.parse] reads back the object that [JSON.stringify] wrote, and
    the text is not empty. *)
Definition json_faithful (fields : list (string * json)) : Prop :=
  JSON_parse (JSON_stringify (JObj fields)) = Some (JObj fields)
  /\ JSON_stringify (JObj fields) <> "".

(** The token header has a text and a signature has bytes. *)
Definition signing_platform : Prop :=
  JSON_stringify jwt_header <> "" /\ forall data, sign data <> [].

End MoreNotions.

(** ** More of the history on the runnable platform *)
Module Scenes.

(** Two hours after Vin asked for a reset token. *)
Definition reset_expired : World :=
  mkWorld (file Fixture.reset_requested) (_db Fixture.reset_requested)
    (fun n => 1700000000 + 2 * 3600 + Z.of_nat n)%Z 0
    (entropy Fixture.reset_requested) (drawn Fixture.reset_requested).

(** The file after Vin's refresh token has been revoked. *)
Definition revoked_db : DB :=
  Eval vm_compute in
    match file (@exec Fixture.platform (RevokeRefreshToken
                        (RefreshToken.token Fixture.session_record))
                  Fixture.signed_in) with
    | Some d => d
    | None => mkDB [] [] []
    end.

(** Another store, in which Amy has given the text bob as her address. *)
Definition amy_registered : World :=
  snd (@register Fixture.platform "Amy" "bob" "amypw" Fixture.ready).

Definition amy_db : DB :=
  Eval vm_compute in
    match file amy_registered with
    | Some d => d
    | None => mkDB [] [] []
    end.

Definition amy : User.t :=
  Eval vm_compute in
    match users amy_db with
    | u :: _ => u
    | [] => User.mk "" "" "" "" 0
    end.

End Scenes.

(** * Properties *)

(** ** Base64 *)

Ltac Zify.zify_post_hook ::= Z.to_euclidean_division_equations.

Lemma list_ind3 {A} (Q : list A -> Prop) :
  Q [] ->
  (forall x, Q [x]) ->
  (forall x y, Q [x; y]) ->
  (forall x y z r, Q r -> Q (x :: y :: z :: r)) ->
  forall l, Q l.
Proof.
  intros H0 H1 H2 H3.
  fix IH 1.
  intros [|x [|y [|z r]]];
    [apply H0 | apply H1 | apply H2 | apply H3, IH].
Qed.

Lemma below_64 (f : N -> bool) :
  forallb f (map N.of_nat (seq 0 64)) = true ->
  forall n, (n < 64)%N -> f n = true.
Proof.
  intros H n Hn.
  rewrite forallb_forall in H.
  apply H.
  rewrite <- (N2Nat.id n).
  apply in_map, in_seq. lia.
Qed.

Lemma url_char_value n :
  (n < 64)%N ->
  unbase64 (std_char (url_char n)) = Some n
  /\ Ascii.eqb (std_char (url_char n)) "=" = false
  /\ Ascii.eqb (url_char n) "=" = false
  /\ Ascii.eqb (url_char n) "." = false.
Proof.
  intros Hn.
  pose (f := fun n =>
    match unbase64 (std_char (url_char n)) with
    | Some m => N.eqb m n
    | None => false
    end
    && negb (Ascii.eqb (std_char (url_char n)) "=")
    && negb (Ascii.eqb (url_char n) "=")
    && negb (Ascii.eqb (url_char n) ".")).
  assert (Hf : f n = true) by (apply below_64; [vm_compute; reflexivity | exact Hn]).
  unfold f in Hf.
  repeat rewrite andb_true_iff in Hf.
  destruct Hf as [[[H1 H2] H3] H4].
  rewrite negb_true_iff in H2, H3, H4.
  destruct (unbase64 (std_char (url_char n))) as [m|]; [|discriminate].
  apply N.eqb_eq in H1. subst m. auto.
Qed.

Lemma sextets_of_bytes_bound b : Forall (fun n => (n < 64)%N) (sextets_of_bytes b).
Proof.
  induction b as [|x|x y|x y z r IH] using list_ind3; cbn [sextets_of_bytes].
  - constructor.
  - pose proof (Byte.to_N_bounded x).
    repeat apply Forall_cons; try apply Forall_nil; lia.
  - pose proof (Byte.to_N_bounded x). pose proof (Byte.to_N_bounded y).
    repeat apply Forall_cons; try apply Forall_nil; lia.
  - pose proof (Byte.to_N_bounded x). pose proof (Byte.to_N_bounded y).
    pose proof (Byte.to_N_bounded z).
    repeat (apply Forall_cons; [lia|]). exact IH.
Qed.

Lemma byte_of_N_eq n x : n = Byte.to_N x -> byte_of_N n = x.
Proof.
  intros ->. unfold byte_of_N.
  pose proof (Byte.to_N_bounded x).
  rewrite N.mod_small by lia.
  now rewrite Byte.of_to_N.
Qed.

Lemma bytes_of_sextets_of_bytes b : bytes_of_sextets (sextets_of_bytes b) = b.
Proof.
  induction b as [|x|x y|x y z r IH] using list_ind3;
    cbn [sextets_of_bytes bytes_of_sextets].
  - reflexivity.
  - pose proof (Byte.to_N_bounded x).
    f_equal. apply byte_of_N_eq. lia.
  - pose proof (Byte.to_N_bounded x). pose proof (Byte.to_N_bounded y).
    repeat (f_equal; try (apply byte_of_N_eq; lia)).
  - pose proof (Byte.to_N_bounded x). pose proof (Byte.to_N_bounded y).
    pose proof (Byte.to_N_bounded z).
    rewrite IH.
    repeat (f_equal; try (apply byte_of_N_eq; lia)).
Qed.

Lemma url_text_chars l :
  url_text (chars (map b64_char l)) = chars (map url_char l).
Proof.
  induction l as [|n l IH]; [reflexivity|].
  unfold url_text in *. cbn [map chars replaceAll]. now rewrite IH.
Qed.

Lemma url_text_app s t : url_text (s ++ t) = (url_text s ++ url_text t)%string.
Proof.
  unfold url_text.
  induction s as [|c s IH]; [reflexivity|].
  cbn [append replaceAll]. now rewrite IH.
Qed.

Lemma url_text_equals k : url_text (equals k) = equals k.
Proof.
  induction k as [|k IH]; [reflexivity|].
  unfold url_text, equals in *. cbn [repeat chars replaceAll]. now rewrite IH.
Qed.

Lemma std_text_chars l : std_text (chars l) = chars (map std_char l).
Proof.
  induction l as [|c l IH]; [reflexivity|].
  unfold std_text in *. cbn [map chars replaceAll]. now rewrite IH.
Qed.

Lemma toString_base64_shape b :
  toString_base64 b
  = (chars (map b64_char (sextets_of_bytes b)) ++ equals (padding b))%string.
Proof.
  induction b as [|x|x y|x y z r IH] using list_ind3;
    cbn [toString_base64 sextets_of_bytes padding map chars append];
    try reflexivity.
  now rewrite IH.
Qed.

Lemma stripTrailing_equals k : stripTrailing "=" (equals k) = "".
Proof.
  induction k as [|k IH]; [reflexivity|].
  unfold equals in *. cbn [repeat chars stripTrailing]. now rewrite IH.
Qed.

Lemma stripTrailing_chars l k :
  Forall (fun c => Ascii.eqb c "=" = false) l ->
  stripTrailing "=" (chars l ++ equals k) = chars l.
Proof.
  induction 1 as [|c l Hc Hl IH].
  - apply stripTrailing_equals.
  - cbn [chars append stripTrailing]. rewrite IH, Hc.
    now destruct (chars l).
Qed.

Lemma url_chars_wf l :
  Forall (fun n => (n < 64)%N) l ->
  Forall (fun c => Ascii.eqb c "=" = false) (map url_char l).
Proof.
  induction 1 as [|n l Hn Hl IH]; cbn [map]; constructor; auto.
  apply (url_char_value n Hn).
Qed.

(** The encoder writes the URL-safe characters of the buffer's six-bit
    groups and nothing else. *)
Lemma base64UrlEncode_chars b :
  base64UrlEncode (OfBuffer b) = chars (map url_char (sextets_of_bytes b)).
Proof.
  unfold base64UrlEncode, Buffer_from.
  fold (url_text (toString_base64 b)).
  rewrite toString_base64_shape, url_text_app, url_text_chars, url_text_equals.
  apply stripTrailing_chars, url_chars_wf, sextets_of_bytes_bound.
Qed.

Lemma append_equals s k : ((s ++ "=") ++ equals k = s ++ equals (S k))%string.
Proof.
  induction s as [|c s IH]; [reflexivity|].
  cbn [append]. now rewrite IH.
Qed.

Lemma padLoop_equals fuel s : exists k, padLoop fuel s = (s ++ equals k)%string.
Proof.
  revert s. induction fuel as [|fuel IH]; intros s; cbn [padLoop].
  - exists 0%nat. unfold equals. cbn. induction s as [|c s IHs]; [reflexivity|].
    cbn. now rewrite <- IHs.
  - destruct (Nat.eqb (String.length s mod 4) 0).
    + exists 0%nat. unfold equals. cbn. induction s as [|c s IHs]; [reflexivity|].
      cbn. now rewrite <- IHs.
    + destruct (IH (s ++ "=")%string) as [k Hk].
      exists (S k). now rewrite Hk, append_equals.
Qed.

Lemma sextets_equals k : sextets (equals k) = [].
Proof. destruct k; reflexivity. Qed.

Lemma sextets_url_chars l k :
  Forall (fun n => (n < 64)%N) l ->
  sextets (chars (map std_char (map url_char l)) ++ equals k) = l.
Proof.
  induction 1 as [|n l Hn Hl IH].
  - apply sextets_equals.
  - cbn [map chars append sextets].
    destruct (url_char_value n Hn) as (Hv & He & _).
    now rewrite He, Hv, IH.
Qed.

Lemma base64UrlDecode_chars l :
  Forall (fun n => (n < 64)%N) l ->
  base64UrlDecode (chars (map url_char l)) = bytes_of_sextets l.
Proof.
  intros Hl. unfold base64UrlDecode, Buffer_from_base64.
  fold (std_text (chars (map url_char l))).
  rewrite std_text_chars.
  destruct (padLoop_equals 3 (chars (map std_char (map url_char l)))) as [k ->].
  now rewrite sextets_url_chars.
Qed.

(** The loop of [base64UrlDecode] has stopped by itself when its three
    rounds are over: the padded length is a multiple of four. *)
Lemma mod4_succ n : (S n mod 4 = S (n mod 4) mod 4)%nat.
Proof.
  change (S n) with (1 + n)%nat.
  now rewrite <- Nat.Div0.add_mod_idemp_r.
Qed.

Lemma padLoop_exit s : (String.length (padLoop 3 s) mod 4 = 0)%nat.
Proof.
  assert (L : forall t, String.length (t ++ "=") = S (String.length t)).
  { induction t as [|c t IH]; [reflexivity|]. cbn. now rewrite IH. }
  cbn [padLoop].
  destruct (Nat.eqb (String.length s mod 4) 0) eqn:E0;
    [now apply Nat.eqb_eq|].
  destruct (Nat.eqb (String.length (s ++ "=") mod 4) 0) eqn:E1;
    [now apply Nat.eqb_eq|].
  destruct (Nat.eqb (String.length ((s ++ "=") ++ "=") mod 4) 0) eqn:E2;
    [now apply Nat.eqb_eq|].
  apply Nat.eqb_neq in E0, E1, E2.
  rewrite !L in *.
  pose proof (Nat.mod_upper_bound (String.length s) 4 ltac:(discriminate))
    as Hr.
  rewrite (mod4_succ (S (S (String.length s)))).
  rewrite (mod4_succ (S (String.length s))) in E2 |- *.
  rewrite (mod4_succ (String.length s)) in E1, E2 |- *.
  destruct (String.length s mod 4)%nat as [|[|[|[|r]]]];
    cbn in *; congruence || lia.
Qed.

(** C10. For every byte buffer [b], decoding the URL-safe base64 text of
    [b] with the module's decoder gives [b] back: the encoding of the token
    segments loses nothing. *)
Theorem base64Url_roundtrip (b : Buffer) :
  base64UrlDecode (base64UrlEncode (OfBuffer b)) = b.
Proof.
  rewrite base64UrlEncode_chars.
  rewrite base64UrlDecode_chars by apply sextets_of_bytes_bound.
  apply bytes_of_sextets_of_bytes.
Qed.

(** ** Tokens *)

Lemma base64UrlDecode_text s :
  toString_utf8 (base64UrlDecode (base64UrlEncode (OfString s))) = s.
Proof.
  change (base64UrlEncode (OfString s))
    with (base64UrlEncode (OfBuffer (list_byte_of_string s))).
  rewrite base64UrlEncode_chars.
  rewrite base64UrlDecode_chars by apply sextets_of_bytes_bound.
  rewrite bytes_of_sextets_of_bytes.
  apply string_of_list_byte_of_string.
Qed.

Lemma split_chars sep l rest :
  Forall (fun c => Ascii.eqb c sep = false) l ->
  split sep (chars l ++ String sep rest) = chars l :: split sep rest.
Proof.
  induction 1 as [|c l Hc Hl IH]; cbn [chars append split].
  - now rewrite Ascii.eqb_refl.
  - now rewrite Hc, IH.
Qed.

Lemma split_chars_last sep l :
  Forall (fun c => Ascii.eqb c sep = false) l ->
  split sep (chars l) = [chars l].
Proof.
  induction 1 as [|c l Hc Hl IH]; cbn [chars split]; [reflexivity|].
  now rewrite Hc, IH.
Qed.

Lemma url_chars_no_dot l :
  Forall (fun n => (n < 64)%N) l ->
  Forall (fun c => Ascii.eqb c "." = false) (map url_char l).
Proof.
  induction 1 as [|n l Hn Hl IH]; cbn [map]; constructor; auto.
  apply (url_char_value n Hn).
Qed.

Lemma split_encoded src rest :
  split "." (base64UrlEncode src ++ String "." rest)
  = base64UrlEncode src :: split "." rest.
Proof.
  change (base64UrlEncode src)
    with (base64UrlEncode (OfBuffer (Buffer_from src))).
  rewrite base64UrlEncode_chars.
  apply split_chars, url_chars_no_dot, sextets_of_bytes_bound.
Qed.

Lemma split_encoded_last src :
  split "." (base64UrlEncode src) = [base64UrlEncode src].
Proof.
  change (base64UrlEncode src)
    with (base64UrlEncode (OfBuffer (Buffer_from src))).
  rewrite base64UrlEncode_chars.
  apply split_chars_last, url_chars_no_dot, sextets_of_bytes_bound.
Qed.

Lemma Buffer_eqb_refl b : Buffer_eqb b b = true.
Proof.
  induction b as [|x b IH]; [reflexivity|].
  cbn. rewrite IH, andb_true_r. now apply Byte.byte_dec_lb.
Qed.

Lemma timingSafeEqual_refl b : timingSafeEqual b b = Return true.
Proof.
  unfold timingSafeEqual. now rewrite Nat.eqb_refl, Buffer_eqb_refl.
Qed.

Lemma obj_get_set k v fields : obj_get k (obj_set k v fields) = Some v.
Proof.
  induction fields as [|[k' v'] r IH]; cbn.
  - now rewrite String.eqb_refl.
  - destruct (String.eqb k' k) eqn:E; cbn.
    + now rewrite String.eqb_refl.
    + now rewrite E.
Qed.

Lemma obj_get_assign_exp target iat exp :
  obj_get "exp" (Object_assign target [("iat", iat); ("exp", exp)]) = Some exp.
Proof. cbn. apply obj_get_set. Qed.

Section Tokens.
Context {P : Platform}.

Lemma _createToken_runs payloadObj ttl w :
  _createToken payloadObj ttl w
  = (Return
       (token_of
          (JObj (payload_of payloadObj ttl (clock w (reads w))
                   (clock w (S (reads w)))))),
     tick (tick w)).
Proof. reflexivity. Qed.

Lemma split_token_of payload :
  split "." (token_of payload)
  = [base64UrlEncode (OfString (JSON_stringify jwt_header));
     base64UrlEncode (OfString (JSON_stringify payload));
     base64UrlEncode
       (OfBuffer
          (sign
             (base64UrlEncode (OfString (JSON_stringify jwt_header))
                ++ "."
                ++ base64UrlEncode (OfString (JSON_stringify payload)))%string))].
Proof.
  unfold token_of. cbn [append].
  now rewrite !split_encoded, split_encoded_last.
Qed.

(** What [_verifyToken] answers on a token that [_createToken] wrote,
    when [JSON.parse] reads the payload back. *)
Lemma _verifyToken_token_of fields w :
  JSON_parse (JSON_stringify (JObj fields)) = Some (JObj fields) ->
  _verifyToken (token_of (JObj fields)) w
  = if falsy (base64UrlEncode (OfString (JSON_stringify jwt_header)))
       || falsy (base64UrlEncode (OfString (JSON_stringify (JObj fields))))
       || falsy
            (base64UrlEncode
               (OfBuffer
                  (sign
                     (base64UrlEncode (OfString (JSON_stringify jwt_header))
                        ++ "."
                        ++ base64UrlEncode
                             (OfString (JSON_stringify (JObj fields))))%string)))
    then (Return None, w)
    else if truthy_opt (obj_get "exp" fields)
         then (Return
                 (if gt_value (clock w (reads w)) (obj_get "exp" fields)
                  then None else Some (JObj fields)),
               tick w)
         else (Return (Some (JObj fields)), w).
Proof.
  intros Hjson.
  unfold _verifyToken, _verifyToken_body.
  rewrite split_token_of. cbn [nth_error].
  set (h := base64UrlEncode (OfString (JSON_stringify jwt_header))).
  set (p := base64UrlEncode (OfString (JSON_stringify (JObj fields)))).
  set (s := base64UrlEncode (OfBuffer (sign (h ++ "." ++ p)%string))).
  destruct (falsy h || falsy p || falsy s); [reflexivity|].
  unfold try_catch, bind, lift.
  rewrite timingSafeEqual_refl. cbn [negb].
  unfold p. rewrite base64UrlDecode_text, Hjson. cbn [get_prop].
  destruct (truthy_opt (obj_get "exp" fields)); [|reflexivity].
  unfold nowSeconds, ret, tick.
  now destruct (gt_value (clock w (reads w)) (obj_get "exp" fields)).
Qed.

Lemma base64UrlEncode_nonempty src :
  Buffer_from src <> [] -> falsy (base64UrlEncode src) = false.
Proof.
  intros H.
  change (base64UrlEncode src)
    with (base64UrlEncode (OfBuffer (Buffer_from src))).
  rewrite base64UrlEncode_chars.
  destruct (Buffer_from src) as [|x [|y [|z r]]]; [now elim H| | |];
    reflexivity.
Qed.

Lemma base64UrlEncode_text_nonempty s :
  s <> "" -> falsy (base64UrlEncode (OfString s)) = false.
Proof.
  intros H. apply base64UrlEncode_nonempty.
  destruct s; [now elim H | discriminate].
Qed.

(** A token that [_createToken] wrote is accepted, with its payload, as
    long as the clock has not passed its expiry. *)
Lemma _verifyToken_accepts fields exp w :
  JSON_parse (JSON_stringify (JObj fields)) = Some (JObj fields) ->
  JSON_stringify jwt_header <> "" ->
  JSON_stringify (JObj fields) <> "" ->
  (forall data, sign data <> []) ->
  obj_get "exp" fields = Some (JNum exp) ->
  exp <> 0%Z ->
  (clock w (reads w) <= exp)%Z ->
  _verifyToken (token_of (JObj fields)) w
  = (Return (Some (JObj fields)), tick w).
Proof.
  intros Hjson Hh Hp Hs Hexp Hnz Hnow.
  rewrite (_verifyToken_token_of fields w Hjson), Hexp.
  rewrite (base64UrlEncode_text_nonempty _ Hh),
    (base64UrlEncode_text_nonempty _ Hp),
    (base64UrlEncode_nonempty (OfBuffer _) (Hs _)).
  cbn [orb truthy_opt truthy gt_value].
  replace (exp =? 0)%Z with false by lia. cbn [negb].
  now replace (clock w (reads w) >? exp)%Z with false by lia.
Qed.

End Tokens.

Section TokenProperties.
Context {P : Platform}.

Lemma nth_error_firstn3 {A} (l l' : list A) i :
  firstn 3 l = firstn 3 l' -> (i < 3)%nat -> nth_error l i = nth_error l' i.
Proof.
  intros H Hi.
  pose proof (nth_error_firstn 3 l i) as E.
  pose proof (nth_error_firstn 3 l' i) as E'.
  apply Nat.ltb_lt in Hi. rewrite Hi in E, E'.
  now rewrite <- E, <- E', H.
Qed.

(** [_verifyToken] looks at the first three segments only. *)
Lemma _verifyToken_first_three token token' w :
  firstn 3 (split "." token') = firstn 3 (split "." token) ->
  _verifyToken token' w = _verifyToken token w.
Proof.
  intros H. unfold _verifyToken, _verifyToken_body.
  now rewrite !(nth_error_firstn3 _ _ _ H) by lia.
Qed.

Lemma _verifyToken_short token w :
  (List.length (split "." token) < 3)%nat ->
  _verifyToken token w = (Return None, w).
Proof.
  intros H. unfold _verifyToken, _verifyToken_body.
  destruct (split "." token) as [|h [|p [|s r]]]; cbn in H; try lia;
    reflexivity.
Qed.

Lemma _verifyToken_empty_segment token w :
  In "" (firstn 3 (split "." token)) ->
  _verifyToken token w = (Return None, w).
Proof.
  intros H. unfold _verifyToken, _verifyToken_body.
  destruct (split "." token) as [|h [|p [|s r]]]; try reflexivity.
  cbn [nth_error firstn] in *.
  assert (E : falsy h || falsy p || falsy s = true).
  { unfold falsy.
    destruct H as [->|[->|[->|[]]]]; cbn;
      rewrite ?orb_true_r; reflexivity. }
  now rewrite E.
Qed.

(** C3 (as the code has it). A string with fewer than three dot-separated
    segments, or whose first, second or third segment is empty, is
    rejected with [null] and no exception; segments after the third are not
    looked at, so a longer string is judged as its first three segments
    are. *)
Theorem verifyToken_segments (token : string) (w : World) :
  ((List.length (split "." token) < 3)%nat
   \/ In "" (firstn 3 (split "." token)) ->
   _verifyToken token w = (Return None, w))
  /\ (forall token',
        firstn 3 (split "." token') = firstn 3 (split "." token) ->
        _verifyToken token' w = _verifyToken token w).
Proof.
  split.
  - intros [H|H]; [now apply _verifyToken_short
                  | now apply _verifyToken_empty_segment].
  - intros token' H. now apply _verifyToken_first_three.
Qed.

(** C8 (as the code has it). A token made with a lifetime of -1 at a clock
    reading [t] other than 1 carries [exp = t - 1], which is before [t],
    and [_verifyToken] answers [null] for it at every reading from [t] on.
    At [t = 1] the expiry is 0, which the expiry test takes for absent. *)
Theorem createToken_expired_rejected
    (payloadObj : list (string * json)) (w w' : World) :
  let t := clock w (S (reads w)) in
  let fields := payload_of payloadObj (-1) (clock w (reads w)) t in
  JSON_parse (JSON_stringify (JObj fields)) = Some (JObj fields) ->
  t <> 1%Z ->
  (t <= clock w' (reads w'))%Z ->
  exists token payloadB,
    fst (_createToken payloadObj (-1) w) = Return token
    /\ nth_error (split "." token) 1 = Some payloadB
    /\ JSON_parse (toString_utf8 (base64UrlDecode payloadB))
       = Some (JObj fields)
    /\ obj_get "exp" fields = Some (JNum (t - 1))
    /\ (t - 1 < t)%Z
    /\ fst (_verifyToken token w') = Return None.
Proof.
  intros t fields Hjson Ht Hlater.
  exists (token_of (JObj fields)),
    (base64UrlEncode (OfString (JSON_stringify (JObj fields)))).
  assert (Hexp : obj_get "exp" fields = Some (JNum (t - 1))).
  { unfold fields, payload_of. now rewrite obj_get_assign_exp. }
  split; [now rewrite _createToken_runs|].
  split; [now rewrite split_token_of|].
  split; [now rewrite base64UrlDecode_text|].
  split; [exact Hexp|].
  split; [lia|].
  rewrite (_verifyToken_token_of fields w' Hjson), Hexp.
  destruct (falsy _ || falsy _ || falsy _); [reflexivity|].
  cbn [truthy_opt truthy gt_value].
  replace (t - 1 =? 0)%Z with false by lia.
  cbn [negb fst].
  now replace (clock w' (reads w') >? t - 1)%Z with true by lia.
Qed.

(** [_verifyToken] neither reads nor writes the file or the cache. *)
Lemma _verifyToken_store token f d w :
  _verifyToken token (with_store f d w)
  = (fst (_verifyToken token w), with_store f d (snd (_verifyToken token w))).
Proof.
  unfold _verifyToken, _verifyToken_body.
  destruct (nth_error (split "." token) 0) as [h|]; [|reflexivity].
  destruct (nth_error (split "." token) 1) as [p|]; [|reflexivity].
  destruct (nth_error (split "." token) 2) as [s|]; [|reflexivity].
  destruct (falsy h || falsy p || falsy s); [reflexivity|].
  unfold try_catch, bind, lift, ret.
  destruct (timingSafeEqual _ _) as [[|]|e]; try reflexivity.
  cbn [negb].
  destruct (JSON_parse _) as [v|]; [|reflexivity].
  destruct (get_prop v "exp") as [exp|e]; [|reflexivity].
  destruct (truthy_opt exp); [|reflexivity].
  unfold nowSeconds, with_store. cbn.
  now destruct (gt_value _ _).
Qed.

Lemma verifyAccessToken_store token f d w :
  verifyAccessToken token (with_store f d w)
  = (fst (verifyAccessToken token w),
     with_store f d (snd (verifyAccessToken token w))).
Proof.
  unfold verifyAccessToken, bind.
  rewrite _verifyToken_store.
  destruct (_verifyToken token w) as [[[v|]|e] w1]; cbn [fst snd];
    try reflexivity.
  unfold ret, lift.
  destruct (truthy v); cbn [negb]; [|reflexivity].
  destruct (get_prop v "type") as [ty|e]; [|reflexivity].
  now destruct (option_eqb_str ty "access").
Qed.

(** C9. [verifyAccessToken] answers [null] whenever [_verifyToken] does and
    whenever the verified payload's [type] is not ['access']; its answer
    does not depend on the file or the cache, and it leaves both as they
    were. *)
Theorem verifyAccessToken_null (token : string) (w : World) :
  (fst (_verifyToken token w) = Return None
   \/ (exists v, fst (_verifyToken token w) = Return (Some v)
                 /\ get_prop v "type" <> Return (Some (JStr "access"))) ->
   fst (verifyAccessToken token w) = Return None)
  /\ (forall f d,
        fst (verifyAccessToken token (with_store f d w))
        = fst (verifyAccessToken token w))
  /\ file (snd (verifyAccessToken token w)) = file w
  /\ _db (snd (verifyAccessToken token w)) = _db w.
Proof.
  pose proof (verifyAccessToken_store token) as Hstore.
  assert (Hsame : verifyAccessToken token w
                  = (fst (verifyAccessToken token w),
                     with_store (file w) (_db w)
                       (snd (verifyAccessToken token w)))).
  { rewrite <- Hstore. now destruct w. }
  split; [|split; [|split]].
  - unfold verifyAccessToken, bind.
    destruct (_verifyToken token w) as [[[v|]|e] w1]; cbn [fst];
      intros [H|(v' & H & Hty)]; try discriminate; try reflexivity.
    injection H as <-.
    unfold ret, lift.
    destruct v as [|b|n|s|items|fields]; cbn in Hty |- *; try reflexivity.
    + now destruct b.
    + now destruct (n =? 0)%Z.
    + now destruct (falsy s).
    + destruct (obj_get "type" fields) as [[|b|n|s|items|fields']|];
        cbn; try reflexivity.
      destruct (String.eqb s "access") eqn:Es; [|reflexivity].
      apply String.eqb_eq in Es. subst s. now elim Hty.
  - intros f d. now rewrite Hstore.
  - now rewrite Hsame.
  - now rewrite Hsame.
Qed.

(** In particular a token that [_createToken] wrote with the type
    ['refresh'] is not an access token, whether or not it has expired. *)
Lemma verifyAccessToken_refresh_typed fields w :
  JSON_parse (JSON_stringify (JObj fields)) = Some (JObj fields) ->
  obj_get "type" fields = Some (JStr "refresh") ->
  fst (verifyAccessToken (token_of (JObj fields)) w) = Return None.
Proof.
  intros Hjson Hty.
  unfold verifyAccessToken, bind.
  rewrite (_verifyToken_token_of fields w Hjson).
  destruct (falsy _ || falsy _ || falsy _); [reflexivity|].
  assert (Hno : forall w1,
    fst ((if negb (truthy (JObj fields)) then ret None
          else
            type <- lift (get_prop (JObj fields) "type") ;;
            if negb (option_eqb_str type "access") then ret None
            else ret (Some (JObj fields))) w1) = Return (@None json)).
  { intros w1. cbn [truthy negb get_prop]. unfold bind, lift.
    now rewrite Hty. }
  destruct (truthy_opt (obj_get "exp" fields)); [|apply Hno].
  destruct (gt_value _ _); [reflexivity | apply Hno].
Qed.

End TokenProperties.

(** C3, at work: a string of two segments and one with an empty second
    segment are rejected, and a fourth segment changes nothing. *)

Lemma verifyToken_segments_witness :
  @_verifyToken Fixture.platform "a.b" Fixture.fresh
  = (Return None, Fixture.fresh)
  /\ @_verifyToken Fixture.platform "a..c" Fixture.fresh
     = (Return None, Fixture.fresh)
  /\ @_verifyToken Fixture.platform
       (Fixture.access_token ++ ".extra") (tick (tick Fixture.fresh))
     = @_verifyToken Fixture.platform
         Fixture.access_token (tick (tick Fixture.fresh)).
Proof.
  split; [|split].
  - apply (proj1 (verifyToken_segments "a.b" Fixture.fresh)).
    left. cbn. lia.
  - apply (proj1 (verifyToken_segments "a..c" Fixture.fresh)).
    right. cbn. tauto.
  - apply (proj2 (verifyToken_segments Fixture.access_token
                    (tick (tick Fixture.fresh)))).
    vm_compute. reflexivity.
Defined.

(** C3, as first stated, fails: a token followed by a fourth segment has
    four non-empty segments and is accepted with its payload. *)
Lemma verifyToken_four_segments_accepted :
  List.length (split "." (Fixture.access_token ++ ".extra")) = 4%nat
  /\ ~ In "" (split "." (Fixture.access_token ++ ".extra"))
  /\ fst (@_verifyToken Fixture.platform
            (Fixture.access_token ++ ".extra") (tick (tick Fixture.fresh)))
     = Return
         (Some
            (JObj
               [("sub", JStr "u1"); ("type", JStr "access");
                ("iat", JNum 1700000000); ("exp", JNum 1700000901)])).
Proof.
  split; [|split].
  - vm_compute. reflexivity.
  - vm_compute. intros [H|[H|[H|[H|[]]]]]; discriminate H.
  - vm_compute. reflexivity.
Qed.

(** C8, at work: a token made with lifetime -1 at 1700000001 is rejected
    one reading later. *)
Lemma createToken_expired_rejected_witness :
  exists token payloadB,
    fst (@_createToken Fixture.platform [("sub", JStr "u1")] (-1)
           Fixture.fresh)
    = Return token
    /\ nth_error (split "." token) 1 = Some payloadB
    /\ @JSON_parse Fixture.platform (toString_utf8 (base64UrlDecode payloadB))
       = Some
           (JObj
              (@payload_of [("sub", JStr "u1")] (-1) 1700000000 1700000001))
    /\ obj_get "exp"
         (@payload_of [("sub", JStr "u1")] (-1) 1700000000 1700000001)
       = Some (JNum (1700000001 - 1))
    /\ (1700000001 - 1 < 1700000001)%Z
    /\ fst (@_verifyToken Fixture.platform token (tick (tick Fixture.fresh)))
       = Return None.
Proof.
  apply (@createToken_expired_rejected Fixture.platform
           [("sub", JStr "u1")] Fixture.fresh (tick (tick Fixture.fresh))).
  - vm_compute. reflexivity.
  - vm_compute. discriminate.
  - vm_compute. discriminate.
Defined.

(** C8, as first stated, fails: when the clock reads 1 the lifetime -1
    gives [exp = 0], and the token verifies. *)
Lemma createToken_at_second_one_accepted :
  exists token,
    fst (@_createToken Fixture.platform [("sub", JStr "u1")] (-1)
           Fixture.second_one)
    = Return token
    /\ fst (@_verifyToken Fixture.platform token (tick (tick Fixture.second_one)))
       = Return
           (Some
              (JObj [("sub", JStr "u1"); ("iat", JNum 1); ("exp", JNum 0)])).
Proof.
  eexists. split.
  - vm_compute. reflexivity.
  - vm_compute. reflexivity.
Qed.

(** C9, at work: a string that is no token, and a signed, unexpired
    refresh token, are both answered with [null]. *)
Lemma verifyAccessToken_null_witness :
  fst (@verifyAccessToken Fixture.platform "not.a.token" Fixture.fresh)
  = Return None
  /\ fst (@verifyAccessToken Fixture.platform Fixture.refresh_token
            (tick (tick Fixture.fresh)))
     = Return None.
Proof.
  split.
  - apply (proj1 (@verifyAccessToken_null Fixture.platform "not.a.token"
                    Fixture.fresh)).
    left. vm_compute. reflexivity.
  - apply (proj1 (@verifyAccessToken_null Fixture.platform
                    Fixture.refresh_token (tick (tick Fixture.fresh)))).
    right.
    exists (JObj [("sub", JStr "u1"); ("type", JStr "refresh");
                  ("iat", JNum 1700000000); ("exp", JNum 1700604801)]).
    split; [vm_compute; reflexivity | vm_compute; discriminate].
Defined.

(** ** Passwords *)

Section PasswordProperties.
Context {P : Platform}.

Lemma falsy_false s : s <> "" -> falsy s = false.
Proof. intros H. unfold falsy. now apply String.eqb_neq. Qed.

(** C2 (where the code departs from it). A stored form with a separator
    and both parts present, whose hexadecimal part does not decode to as
    many bytes as the derived key has, makes [_verifyPassword] throw the
    RangeError of [crypto.timingSafeEqual]; it does not answer [false]. *)
Theorem verifyPassword_throws_on_length_mismatch
    (stored supplied salt derivedHex : string) (rest : list string) :
  supplied <> "" ->
  split "$" stored = salt :: derivedHex :: rest ->
  salt <> "" ->
  derivedHex <> "" ->
  List.length (Buffer_from_hex derivedHex)
  <> List.length (scryptSync supplied salt 64) ->
  _verifyPassword stored supplied = Throw RangeError.
Proof.
  intros Hsup Hsplit Hsalt Hhex Hlen.
  unfold _verifyPassword.
  assert (Hstored : stored <> "") by (intros ->; discriminate Hsplit).
  rewrite (falsy_false _ Hstored), (falsy_false _ Hsup), Hsplit.
  cbn [orb nth_error].
  rewrite (falsy_false _ Hsalt), (falsy_false _ Hhex). cbn [orb].
  unfold timingSafeEqual.
  now apply Nat.eqb_neq in Hlen as ->.
Qed.

(** The guards that the code does have: an empty input and a stored form
    without separator are answered with [false]. *)
Lemma _verifyPassword_guards stored supplied :
  stored = "" \/ supplied = "" \/ List.length (split "$" stored) = 1%nat ->
  _verifyPassword stored supplied = Return false.
Proof.
  unfold _verifyPassword.
  intros [->|[->|H]]; [reflexivity| |].
  - now rewrite orb_true_r.
  - destruct (falsy stored || falsy supplied); [reflexivity|].
    destruct (split "$" stored) as [|a [|b r]]; try discriminate H.
    reflexivity.
Qed.

End PasswordProperties.

(** C2, at work: the stored form [ab$zz] has both parts, and its second
    part decodes to no byte at all. *)
Lemma verifyPassword_throws_on_length_mismatch_witness :
  @_verifyPassword Fixture.platform "ab$zz" "pw" = Throw RangeError.
Proof.
  apply (@verifyPassword_throws_on_length_mismatch Fixture.platform
           "ab$zz" "pw" "ab" "zz" []).
  - discriminate.
  - reflexivity.
  - discriminate.
  - discriminate.
  - vm_compute. discriminate.
Defined.

(** ** The store *)

Section Uniqueness.
Context {P : Platform}.
Hypothesis toLowerCase_idempotent :
  forall s, toLowerCase (toLowerCase s) = toLowerCase s.

Lemma keeps_ret {A} (a : A) : keeps (ret a).
Proof. intros w H. exact H. Qed.

Lemma keeps_throw {A} e : keeps (@throw A e).
Proof. intros w H. exact H. Qed.

Lemma keeps_lift {A} (o : outcome A) : keeps (lift o).
Proof. intros w H. exact H. Qed.

Lemma keeps_bind {A B} (m : M A) (k : A -> M B) :
  keeps m -> (forall a, keeps (k a)) -> keeps (bind m k).
Proof.
  intros Hm Hk w H. unfold bind.
  specialize (Hm w H).
  destruct (m w) as [[a|e] w1]; cbn [snd] in *; [now apply Hk | exact Hm].
Qed.

Lemma keeps_try_catch {A} (m : M A) (h : exn -> M A) :
  keeps m -> (forall e, keeps (h e)) -> keeps (try_catch m h).
Proof.
  intros Hm Hh w H. unfold try_catch.
  specialize (Hm w H).
  destruct (m w) as [[a|e] w1]; cbn [snd] in *; [exact Hm | now apply Hh].
Qed.

Lemma keeps_nowSeconds : keeps nowSeconds.
Proof. intros w H. exact H. Qed.

Lemma keeps_randomBytes n : keeps (randomBytes n).
Proof. intros w H. exact H. Qed.

Lemma keeps_fs_access : keeps fs_access.
Proof. intros w H. unfold fs_access. now destruct (file w). Qed.

Lemma keeps_fs_writeFile d : users_unique d -> keeps (fs_writeFile d).
Proof. intros Hd w [_ Hc]. split; [exact Hd | exact Hc]. Qed.

Lemma keeps_set_this_db d : users_unique d -> keeps (set_this_db (Some d)).
Proof. intros Hd w [Hf _]. split; [exact Hf | exact Hd]. Qed.

(** What is read from the cache is unique. *)
Lemma keeps_this_db {B} (k : DB -> M B) :
  (forall d, users_unique d -> keeps (k d)) -> keeps (bind this_db k).
Proof.
  intros Hk w H. unfold bind, this_db.
  destruct (_db w) as [d|] eqn:E; [|exact H].
  apply Hk; [|exact H].
  destruct H as [_ Hc]. unfold cache_unique in Hc. now rewrite E in Hc.
Qed.

Lemma keeps_load : keeps _load.
Proof.
  intros w [Hf Hc]. unfold _load, bind, fs_readFile, set_this_db.
  unfold persisted_unique in Hf.
  destruct (file w) as [d|] eqn:E; cbn [snd].
  - split; [unfold persisted_unique | unfold cache_unique]; cbn;
      now rewrite ?E.
  - split; [unfold persisted_unique; now rewrite E | exact Hc].
Qed.

Lemma keeps_save : keeps _save.
Proof.
  unfold _save. apply keeps_this_db. intros d Hd.
  now apply keeps_fs_writeFile.
Qed.

Lemma users_unique_same d us rt st :
  users_unique d -> us = users d -> users_unique (mkDB us rt st).
Proof. intros H ->. exact H. Qed.

Lemma users_unique_empty : users_unique (mkDB [] [] []).
Proof. repeat split; constructor. Qed.

(** Appending a user whose lower-cased name and address no stored user
    has. *)
Lemma users_unique_push d id username email hashed now rt st :
  users_unique d ->
  find (fun u => String.eqb (User.username u) (toLowerCase username))
    (users d) = None ->
  find (fun u => String.eqb (User.email u) (toLowerCase email))
    (users d) = None ->
  users_unique
    (mkDB (users d
             ++ [User.mk id (toLowerCase username) (toLowerCase email)
                   hashed now]) rt st).
Proof.
  intros (Hn & He & Hl) Fn Fe.
  assert (fresh_in : forall (get : User.t -> string) key,
    Forall (fun u => toLowerCase (get u) = get u) (users d) ->
    find (fun u => String.eqb (get u) (toLowerCase key)) (users d) = None ->
    ~ In (toLowerCase (toLowerCase key))
        (map (fun u => toLowerCase (get u)) (users d))).
  { intros get key Hlow Hfind Hin.
    apply in_map_iff in Hin as (u & Hu & Hin).
    rewrite Forall_forall in Hlow.
    pose proof (find_none _ _ Hfind u Hin) as Hneq. cbn in Hneq.
    apply String.eqb_neq in Hneq. apply Hneq.
    rewrite <- (Hlow u Hin), Hu. apply toLowerCase_idempotent. }
  assert (nodup_push : forall (l : list string) x,
    NoDup l -> ~ In x l -> NoDup (l ++ [x])).
  { intros l x Hl' Hx. induction Hl' as [|y l Hy Hl' IH]; cbn.
    - constructor; [intros []|constructor].
    - constructor.
      + rewrite in_app_iff. intros [H|[H|[]]]; [now apply Hy|].
        apply Hx. left. now symmetry.
      + apply IH. intros H. apply Hx. now right. }
  unfold users_unique. cbn [users]. rewrite !map_app. cbn [map User.username User.email].
  split; [|split].
  - apply nodup_push; [exact Hn|].
    apply (fresh_in User.username); [|exact Fn].
    eapply Forall_impl; [|exact Hl]. now intros u [H _].
  - apply nodup_push; [exact He|].
    apply (fresh_in User.email); [|exact Fe].
    eapply Forall_impl; [|exact Hl]. now intros u [_ H].
  - apply Forall_app. split; [exact Hl|].
    constructor; [|constructor].
    split; cbn; apply toLowerCase_idempotent.
Qed.

(** Replacing a password changes no name and no address. *)
Lemma users_unique_set_password d p h rt st :
  users_unique d ->
  users_unique (mkDB (update_first p (User.set_password h) (users d)) rt st).
Proof.
  intros (Hn & He & Hl).
  assert (Hmap : forall (get : User.t -> string) us,
    (forall u, get (User.set_password h u) = get u) ->
    map get (update_first p (User.set_password h) us) = map get us).
  { intros get us Hget. induction us as [|u us IH]; [reflexivity|].
    cbn. destruct (p u); cbn; [now rewrite Hget | now rewrite IH]. }
  unfold users_unique. cbn [users].
  rewrite !Hmap by reflexivity.
  split; [exact Hn | split; [exact He|]].
  clear Hn He Hmap. induction Hl as [|u us Hu Hl IH]; cbn; [constructor|].
  destruct (p u); constructor; auto.
Qed.


Ltac keeps_step :=
  lazymatch goal with
  | |- keeps (bind this_db _) => apply keeps_this_db; intros ? ?
  | |- keeps (bind _ _) => apply keeps_bind; [|intros ?]
  | |- keeps (try_catch _ _) => apply keeps_try_catch; [|intros ?]
  | |- keeps (ret _) => apply keeps_ret
  | |- keeps (throw _) => apply keeps_throw
  | |- keeps (lift _) => apply keeps_lift
  | |- keeps nowSeconds => apply keeps_nowSeconds
  | |- keeps (randomBytes _) => apply keeps_randomBytes
  | |- keeps fs_access => apply keeps_fs_access
  | |- keeps _load => apply keeps_load
  | |- keeps _save => apply keeps_save
  | |- keeps (fs_writeFile _) => apply keeps_fs_writeFile
  | |- keeps (set_this_db (Some _)) => apply keeps_set_this_db
  | |- keeps (if ?b then _ else _) => destruct b
  | |- keeps (match ?x with _ => _ end) => destruct x
  | |- users_unique (mkDB [] [] []) => apply users_unique_empty
  | |- users_unique (mkDB (users _) _ _) =>
      eapply users_unique_same; [eassumption | reflexivity]
  | |- users_unique (mkDB (update_first _ _ _) _ _) =>
      apply users_unique_set_password; assumption
  end.

Ltac keeps_auto := cbv zeta; repeat keeps_step.

Lemma keeps_hashPassword password : keeps (_hashPassword password).
Proof. unfold _hashPassword. keeps_auto. Qed.

Lemma keeps_createToken payloadObj ttl : keeps (_createToken payloadObj ttl).
Proof. unfold _createToken. keeps_auto. Qed.

Lemma keeps_verifyToken token : keeps (_verifyToken token).
Proof. unfold _verifyToken, _verifyToken_body. keeps_auto. Qed.

Lemma keeps_init : keeps init.
Proof. unfold init. keeps_auto. Qed.

Lemma keeps_authenticate u p : keeps (authenticate u p).
Proof.
  unfold authenticate. keeps_auto;
    try apply keeps_createToken; keeps_auto.
Qed.

Lemma keeps_verifyAccessToken t : keeps (verifyAccessToken t).
Proof.
  unfold verifyAccessToken. keeps_auto. apply keeps_verifyToken.
Qed.

Lemma keeps_refreshAccessToken t : keeps (refreshAccessToken t).
Proof.
  unfold refreshAccessToken. keeps_auto;
    first [apply keeps_verifyToken | apply keeps_createToken].
Qed.

Lemma keeps_revokeRefreshToken t : keeps (revokeRefreshToken t).
Proof. unfold revokeRefreshToken. keeps_auto. Qed.

Lemma keeps_changePassword i o n : keeps (changePassword i o n).
Proof.
  unfold changePassword. keeps_auto. apply keeps_hashPassword.
Qed.

Lemma keeps_generateResetToken e : keeps (generateResetToken e).
Proof. unfold generateResetToken. keeps_auto. Qed.

Lemma keeps_verifyResetToken t : keeps (verifyResetToken t).
Proof. unfold verifyResetToken. keeps_auto. Qed.

Lemma keeps_consumeResetToken t p : keeps (consumeResetToken t p).
Proof.
  unfold consumeResetToken. keeps_auto;
    first [apply keeps_verifyResetToken | apply keeps_changePassword].
Qed.

Lemma keeps_getUserById i : keeps (getUserById i).
Proof. unfold getUserById. keeps_auto. Qed.

Lemma keeps_cleanupExpired : keeps cleanupExpired.
Proof. unfold cleanupExpired. keeps_auto. Qed.


(** [register] pushes onto the very document it has searched: nothing
    between the two [find] and the [push] writes the cache. *)
Lemma keeps_register u e p : keeps (register u e p).
Proof.
  intros w [Hf Hc]. unfold register.
  destruct (falsy u || falsy e || falsy p); [now split|].
  cbv zeta.
  unfold bind, _load, fs_readFile, set_this_db, this_db, randomUUID,
    randomBytes, _hashPassword, nowSeconds, _save, fs_writeFile, ret, throw,
    bind.
  destruct w as [f c clk r en n].
  unfold persisted_unique, cache_unique in Hf, Hc. cbn [file _db] in Hf, Hc.
  cbn [file _db clock reads entropy drawn].
  destruct f as [d|]; [|now split].
  cbn [file _db clock reads entropy drawn].
  destruct (find _ (users d)) eqn:Fn; [now split|].
  destruct (find (fun u0 => String.eqb (User.email u0) _) (users d)) eqn:Fe;
    [now split|].
  destruct has_randomUUID;
    cbn [file _db clock reads entropy drawn snd];
    (split; [unfold persisted_unique | unfold cache_unique];
     cbn [file _db]; now apply users_unique_push).
Qed.

(** Every call keeps file and cache unique once both are. *)
Lemma exec_keeps c w : consistent w -> consistent (exec c w).
Proof.
  destruct c; cbn [exec].
  - apply keeps_init.
  - apply keeps_register.
  - apply keeps_authenticate.
  - apply keeps_verifyAccessToken.
  - apply keeps_refreshAccessToken.
  - apply keeps_revokeRefreshToken.
  - apply keeps_changePassword.
  - apply keeps_generateResetToken.
  - apply keeps_verifyResetToken.
  - apply keeps_consumeResetToken.
  - apply keeps_getUserById.
  - apply keeps_cleanupExpired.
Qed.

End Uniqueness.

Section CacheIrrelevance.
Context {P : Platform}.

Lemma bind_assoc {A B C} (m : M A) (f : A -> M B) (g : B -> M C) w :
  bind (bind m f) g w = bind m (fun a => bind (f a) g) w.
Proof. unfold bind. now destruct (m w) as [[a|e] w1]. Qed.

(** What follows [_load] does not see the cache the call started with. *)
Lemma load_forgets_cache {A} (k : unit -> M A) d0 w :
  file (snd (bind _load k (with_cache d0 w)))
  = file (snd (bind _load k w)).
Proof.
  destruct w as [f c clk r en n].
  unfold bind, _load, fs_readFile, set_this_db, with_cache, bind.
  cbn [file _db clock reads entropy drawn].
  now destruct f.
Qed.

Lemma exec_forgets_cache c d0 w :
  file (exec c (with_cache d0 w)) = file (exec c w).
Proof.
  destruct c; cbn [exec].
  - destruct w as [f c clk r en n].
    unfold init, bind, try_catch, fs_access, fs_writeFile, _load, bind,
      fs_readFile, set_this_db, with_cache.
    cbn [file _db clock reads entropy drawn].
    now destruct f.
  - unfold register.
    destruct (falsy username || falsy email || falsy password);
      [reflexivity | apply load_forgets_cache].
  - unfold authenticate.
    destruct (falsy usernameOrEmail || falsy password);
      [reflexivity | apply load_forgets_cache].
  - change (with_cache d0 w) with (with_store (file w) d0 w).
    rewrite verifyAccessToken_store. cbn [snd with_store file].
    replace w with (with_store (file w) (_db w) w) at 2 by now destruct w.
    now rewrite verifyAccessToken_store.
  - unfold refreshAccessToken.
    destruct (falsy refreshToken); [reflexivity | apply load_forgets_cache].
  - apply load_forgets_cache.
  - unfold changePassword.
    destruct (falsy userId || falsy oldPassword || falsy newPassword);
      [reflexivity | apply load_forgets_cache].
  - unfold generateResetToken.
    destruct (falsy email); [reflexivity | apply load_forgets_cache].
  - unfold verifyResetToken.
    destruct (falsy rawToken); [reflexivity | apply load_forgets_cache].
  - unfold consumeResetToken, verifyResetToken.
    destruct (falsy rawToken); [reflexivity|].
    rewrite !bind_assoc. apply load_forgets_cache.
  - apply load_forgets_cache.
  - apply load_forgets_cache.
Qed.

(** C5. Every call of the store, whether it returns or throws, leaves a
    file in which no two users share a user name or an address once case is
    folded, and in which every name and address is stored folded, when the
    file it started from is such. Case folding is taken to give its own
    results back unchanged. *)
Theorem exec_preserves_uniqueness (c : call) (w : World) :
  (forall s, toLowerCase (toLowerCase s) = toLowerCase s) ->
  persisted_unique w ->
  persisted_unique (exec c w).
Proof.
  intros Hidem Hw.
  assert (Hc : consistent (with_cache (file w) w)).
  { split; [exact Hw|]. exact Hw. }
  apply (exec_keeps Hidem c) in Hc. destruct Hc as [Hc _].
  unfold persisted_unique in *.
  now rewrite exec_forgets_cache in Hc.
Qed.

End CacheIrrelevance.

Lemma find_exists {A} (p : A -> bool) l :
  (exists x, In x l /\ p x = true) -> exists y, find p l = Some y.
Proof.
  intros (x & Hin & Hp).
  destruct (find p l) as [y|] eqn:E; [now exists y|].
  pose proof (find_none _ _ E x Hin). congruence.
Qed.

Lemma find_all_false {A} (p : A -> bool) l :
  (forall x, In x l -> p x = false) -> find p l = None.
Proof.
  induction l as [|a l IH]; intros H; [reflexivity|].
  cbn. rewrite (H a) by now left.
  apply IH. intros x Hx. apply H. now right.
Qed.

Lemma find_filter_negb {A} (p : A -> bool) l :
  find p (filter (fun x => negb (p x)) l) = None.
Proof.
  apply find_all_false. intros x Hx.
  apply filter_In in Hx as [_ Hx]. now apply negb_true_iff.
Qed.

Section StoreProperties.
Context {P : Platform}.

(** C7. With all three arguments present and the file in place: when a
    stored user has the lower-cased user name, [register] throws
    [username_taken]; when none has it but one has the lower-cased address,
    it throws [email_taken]. Either way the file is as it was and the cache
    holds the document as loaded, no user added. *)
Theorem register_rejects_duplicates
    (username email password : string) (w : World) (db : DB) :
  file w = Some db ->
  username <> "" -> email <> "" -> password <> "" ->
  ((exists u, In u (users db) /\ User.username u = toLowerCase username) ->
   fst (register username email password w) = Throw (Error "username_taken")
   /\ file (snd (register username email password w)) = Some db
   /\ _db (snd (register username email password w)) = Some db)
  /\ ((forall u, In u (users db) -> User.username u <> toLowerCase username) ->
      (exists u, In u (users db) /\ User.email u = toLowerCase email) ->
      fst (register username email password w) = Throw (Error "email_taken")
      /\ file (snd (register username email password w)) = Some db
      /\ _db (snd (register username email password w)) = Some db).
Proof.
  intros Hfile Hu He Hp.
  destruct w as [f c clk r en n]. cbn [file] in Hfile. subst f.
  unfold register.
  rewrite (falsy_false _ Hu), (falsy_false _ He), (falsy_false _ Hp).
  cbn [orb]. cbv zeta.
  unfold bind, _load, fs_readFile, set_this_db, this_db, bind, throw.
  cbn [file _db clock reads entropy drawn].
  split.
  - intros (u & Hin & Hname).
    destruct (find_exists
                (fun u => String.eqb (User.username u) (toLowerCase username))
                (users db)) as [y ->].
    { exists u. split; [exact Hin|]. now apply String.eqb_eq. }
    now cbn.
  - intros Hnone (u & Hin & Hmail).
    rewrite find_all_false.
    2:{ intros x Hx. apply String.eqb_neq. now apply Hnone. }
    destruct (find_exists
                (fun u => String.eqb (User.email u) (toLowerCase email))
                (users db)) as [y ->].
    { exists u. split; [exact Hin|]. now apply String.eqb_eq. }
    now cbn.
Qed.

(** C6. With both arguments present and the file in place, [authenticate]
    throws [invalid_credentials] when no stored user has the lower-cased
    identifier as user name or address, and throws the same
    [invalid_credentials] when the user found fails the password check. *)
Theorem authenticate_invalid_credentials
    (usernameOrEmail password : string) (w : World) (db : DB) :
  file w = Some db ->
  usernameOrEmail <> "" -> password <> "" ->
  ((forall u, In u (users db) ->
              User.username u <> toLowerCase usernameOrEmail
              /\ User.email u <> toLowerCase usernameOrEmail) ->
   fst (authenticate usernameOrEmail password w)
   = Throw (Error "invalid_credentials"))
  /\ (forall user,
        find (fun u =>
                String.eqb (User.username u) (toLowerCase usernameOrEmail)
                || String.eqb (User.email u) (toLowerCase usernameOrEmail))
          (users db) = Some user ->
        _verifyPassword (User.password user) password = Return false ->
        fst (authenticate usernameOrEmail password w)
        = Throw (Error "invalid_credentials")).
Proof.
  intros Hfile Hu Hp.
  destruct w as [f c clk r en n]. cbn [file] in Hfile. subst f.
  unfold authenticate.
  rewrite (falsy_false _ Hu), (falsy_false _ Hp).
  cbn [orb]. cbv zeta.
  unfold bind, _load, fs_readFile, set_this_db, this_db, bind.
  cbn [file _db clock reads entropy drawn].
  split.
  - intros Hnone. rewrite find_all_false; [reflexivity|].
    intros x Hx. destruct (Hnone x Hx) as [H1 H2].
    apply orb_false_iff. split; now apply String.eqb_neq.
  - intros user Hfind Hpw. rewrite Hfind.
    unfold lift. now rewrite Hpw.
Qed.

(** C4. For a supplied refresh token whose stored record has an expiry
    before the clock's reading, [refreshAccessToken] throws
    [refresh_token_expired] and leaves a file without any record of that
    token; called again in the world it left, it throws
    [invalid_refresh_token]. *)
Theorem refreshAccessToken_expired
    (refreshToken : string) (w : World) (db : DB) (stored : RefreshToken.t) :
  file w = Some db ->
  refreshToken <> "" ->
  find (fun r => String.eqb (RefreshToken.token r) refreshToken)
    (refreshTokens db) = Some stored ->
  (RefreshToken.expiresAt stored < clock w (reads w))%Z ->
  let db' :=
    mkDB (users db)
      (filter (fun r => negb (String.eqb (RefreshToken.token r) refreshToken))
         (refreshTokens db))
      (resetTokens db) in
  let w' := snd (refreshAccessToken refreshToken w) in
  fst (refreshAccessToken refreshToken w)
  = Throw (Error "refresh_token_expired")
  /\ file w' = Some db'
  /\ (forall r, In r (refreshTokens db') ->
                RefreshToken.token r <> refreshToken)
  /\ fst (refreshAccessToken refreshToken w')
     = Throw (Error "invalid_refresh_token").
Proof.
  intros Hfile Htok Hfind Hexp db' w'.
  assert (Hrun : refreshAccessToken refreshToken w
                 = (Throw (Error "refresh_token_expired"),
                    mkWorld (Some db') (Some db') (clock w) (S (reads w))
                      (entropy w) (drawn w))).
  { destruct w as [f c clk r en n]. cbn [file] in Hfile. subst f.
    cbn [clock reads] in Hexp.
    unfold refreshAccessToken. rewrite (falsy_false _ Htok).
    unfold bind, _load, fs_readFile, set_this_db, this_db, bind.
    cbn [file _db clock reads entropy drawn]. rewrite Hfind.
    unfold nowSeconds, _save, this_db, fs_writeFile, bind, throw.
    cbn [file _db clock reads entropy drawn].
    now replace (clk r >? RefreshToken.expiresAt stored)%Z with true by lia. }
  subst w'. rewrite Hrun. cbn [fst snd file].
  repeat split.
  - intros r Hr. cbn [refreshTokens db'] in Hr.
    apply filter_In in Hr as [_ Hr].
    apply negb_true_iff in Hr. now apply String.eqb_neq.
  - unfold refreshAccessToken. rewrite (falsy_false _ Htok).
    unfold bind, _load, fs_readFile, set_this_db, this_db, bind.
    cbn [file _db clock reads entropy drawn refreshTokens db'].
    now rewrite (find_filter_negb
                   (fun r => String.eqb (RefreshToken.token r) refreshToken)).
Qed.

(** C1 (where the code departs from it). With a valid, unexpired reset
    token in the file for a stored user, and a new password that is not the
    user's current one (the password check of the stored form answers
    [false] for it), [consumeResetToken] throws [invalid_current_password]
    and the file is as it was: the password has not been set. *)
Theorem consumeResetToken_rejects_new_password
    (rawToken newPassword : string) (w : World) (db : DB)
    (rec : ResetToken.t) (user : User.t) :
  file w = Some db ->
  rawToken <> "" -> newPassword <> "" ->
  find (fun r =>
          String.eqb (ResetToken.tokenHash r)
            (toString_hex (hmac_sha256 SECRET rawToken)))
    (resetTokens db) = Some rec ->
  (clock w (reads w) <= ResetToken.expiresAt rec)%Z ->
  ResetToken.userId rec <> "" ->
  find (fun u => String.eqb (User.id u) (ResetToken.userId rec)) (users db)
  = Some user ->
  _verifyPassword (User.password user) newPassword = Return false ->
  fst (consumeResetToken rawToken newPassword w)
  = Throw (Error "invalid_current_password")
  /\ file (snd (consumeResetToken rawToken newPassword w)) = Some db.
Proof.
  intros Hfile Hraw Hnew Hrec Hexp Hid Huser Hpw.
  destruct w as [f c clk r en n]. cbn [file] in Hfile. subst f.
  cbn [clock reads] in Hexp.
  enough (Hrun : consumeResetToken rawToken newPassword
                   (mkWorld (Some db) c clk r en n)
                 = (Throw (Error "invalid_current_password"),
                    mkWorld (Some db) (Some db) clk (S r) en n))
    by now rewrite Hrun.
  unfold consumeResetToken, verifyResetToken.
  rewrite (falsy_false _ Hraw). cbv zeta.
  unfold bind, _load, fs_readFile, set_this_db, this_db, bind.
  cbn [file _db clock reads entropy drawn]. rewrite Hrec.
  unfold nowSeconds.
  cbn [file _db clock reads entropy drawn].
  replace (clk r >? ResetToken.expiresAt rec)%Z with false by lia.
  unfold ret at 1. rewrite (falsy_false _ Hid).
  unfold changePassword.
  rewrite (falsy_false _ Hid), (falsy_false _ Hnew). cbn [orb].
  unfold bind, _load, fs_readFile, set_this_db, this_db, bind.
  cbn [file _db clock reads entropy drawn]. rewrite Huser.
  unfold lift. rewrite Hpw.
  now cbn.
Qed.

End StoreProperties.

(** ** The theorems at work on the runnable platform *)

Lemma lower_ascii_idempotent c :
  Fixture.lower_ascii (Fixture.lower_ascii c) = Fixture.lower_ascii c.
Proof. destruct c as [[] [] [] [] [] [] [] []]; reflexivity. Qed.

Lemma lower_idempotent s : Fixture.lower (Fixture.lower s) = Fixture.lower s.
Proof.
  induction s as [|c s IH]; [reflexivity|].
  cbn [Fixture.lower]. now rewrite lower_ascii_idempotent, IH.
Qed.

Lemma registered_unique : @persisted_unique Fixture.platform Fixture.registered.
Proof.
  unfold persisted_unique.
  replace (file Fixture.registered) with (Some Fixture.registered_db)
    by (vm_compute; reflexivity).
  unfold users_unique, lowercased. cbn.
  repeat split.
  - constructor; [intros []|constructor].
  - constructor; [intros []|constructor].
  - constructor; [now split|constructor].
Qed.

(** C5, at work: a second registration and a password change after
    Vin's registration. *)
Lemma exec_preserves_uniqueness_witness :
  @persisted_unique Fixture.platform
    (@exec Fixture.platform (Register "Bob" "bob@example.com" "pw")
       Fixture.registered)
  /\ @persisted_unique Fixture.platform
       (@exec Fixture.platform
          (ChangePassword (User.id Fixture.vin) "secret" "next")
          Fixture.registered).
Proof.
  split.
  - exact (@exec_preserves_uniqueness Fixture.platform
             (Register "Bob" "bob@example.com" "pw") Fixture.registered
             lower_idempotent registered_unique).
  - exact (@exec_preserves_uniqueness Fixture.platform
             (ChangePassword (User.id Fixture.vin) "secret" "next")
             Fixture.registered lower_idempotent registered_unique).
Defined.

(** C7, at work: Vin's name in other case, and Vin's address under a new
    name. *)
Lemma register_rejects_duplicates_witness :
  (fst (@register Fixture.platform "VIN" "other@example.com" "pw"
          Fixture.registered)
   = Throw (Error "username_taken")
   /\ file (snd (@register Fixture.platform "VIN" "other@example.com" "pw"
                   Fixture.registered))
      = Some Fixture.registered_db
   /\ _db (snd (@register Fixture.platform "VIN" "other@example.com" "pw"
                  Fixture.registered))
      = Some Fixture.registered_db)
  /\ (fst (@register Fixture.platform "bob" "V@EXAMPLE.COM" "pw"
             Fixture.registered)
      = Throw (Error "email_taken")
      /\ file (snd (@register Fixture.platform "bob" "V@EXAMPLE.COM" "pw"
                      Fixture.registered))
         = Some Fixture.registered_db
      /\ _db (snd (@register Fixture.platform "bob" "V@EXAMPLE.COM" "pw"
                     Fixture.registered))
         = Some Fixture.registered_db).
Proof.
  split.
  - apply (proj1 (@register_rejects_duplicates Fixture.platform
                    "VIN" "other@example.com" "pw" Fixture.registered
                    Fixture.registered_db ltac:(vm_compute; reflexivity)
                    ltac:(discriminate) ltac:(discriminate)
                    ltac:(discriminate))).
    exists Fixture.vin. split; [now left | reflexivity].
  - apply (proj2 (@register_rejects_duplicates Fixture.platform
                    "bob" "V@EXAMPLE.COM" "pw" Fixture.registered
                    Fixture.registered_db ltac:(vm_compute; reflexivity)
                    ltac:(discriminate) ltac:(discriminate)
                    ltac:(discriminate))).
    + intros u [<-|[]]. vm_compute. discriminate.
    + exists Fixture.vin. split; [now left | reflexivity].
Defined.

(** C6, at work: an unknown name, and Vin with a wrong password. *)
Lemma authenticate_invalid_credentials_witness :
  fst (@authenticate Fixture.platform "nobody" "secret" Fixture.registered)
  = Throw (Error "invalid_credentials")
  /\ fst (@authenticate Fixture.platform "Vin" "wrong" Fixture.registered)
     = Throw (Error "invalid_credentials").
Proof.
  split.
  - apply (proj1 (@authenticate_invalid_credentials Fixture.platform
                    "nobody" "secret" Fixture.registered
                    Fixture.registered_db ltac:(vm_compute; reflexivity)
                    ltac:(discriminate) ltac:(discriminate))).
    intros u [<-|[]]. split; vm_compute; discriminate.
  - apply (proj2 (@authenticate_invalid_credentials Fixture.platform
                    "Vin" "wrong" Fixture.registered
                    Fixture.registered_db ltac:(vm_compute; reflexivity)
                    ltac:(discriminate) ltac:(discriminate))
             Fixture.vin).
    + reflexivity.
    + vm_compute. reflexivity.
Defined.

(** C4, at work: Vin's refresh token, presented eight days after it was
    issued, and presented again. *)
Lemma refreshAccessToken_expired_witness :
  fst (@refreshAccessToken Fixture.platform
         (RefreshToken.token Fixture.session_record)
         Fixture.eight_days_later)
  = Throw (Error "refresh_token_expired")
  /\ fst (@refreshAccessToken Fixture.platform
            (RefreshToken.token Fixture.session_record)
            (snd (@refreshAccessToken Fixture.platform
                    (RefreshToken.token Fixture.session_record)
                    Fixture.eight_days_later)))
     = Throw (Error "invalid_refresh_token").
Proof.
  pose proof (@refreshAccessToken_expired Fixture.platform
                (RefreshToken.token Fixture.session_record)
                Fixture.eight_days_later Fixture.signed_in_db
                Fixture.session_record ltac:(vm_compute; reflexivity)
                ltac:(discriminate) ltac:(vm_compute; reflexivity)
                ltac:(vm_compute; reflexivity)) as H.
  cbv zeta in H. destruct H as (H1 & _ & _ & H2).
  split; [exact H1 | exact H2].
Defined.

(** C1, at work: Vin's reset token, redeemed for a new password. *)
Lemma consumeResetToken_rejects_new_password_witness :
  fst (@consumeResetToken Fixture.platform Fixture.raw_reset_token "newpass"
         Fixture.reset_requested)
  = Throw (Error "invalid_current_password")
  /\ file (snd (@consumeResetToken Fixture.platform Fixture.raw_reset_token
                  "newpass" Fixture.reset_requested))
     = Some Fixture.reset_db.
Proof.
  apply (@consumeResetToken_rejects_new_password Fixture.platform
           Fixture.raw_reset_token "newpass" Fixture.reset_requested
           Fixture.reset_db Fixture.reset_record Fixture.vin).
  - vm_compute. reflexivity.
  - discriminate.
  - discriminate.
  - vm_compute. reflexivity.
  - vm_compute. discriminate.
  - discriminate.
  - vm_compute. reflexivity.
  - vm_compute. reflexivity.
Defined.

(** The whole reset flow, run: after the reset is refused the new password
    does not sign in and the old one still does. *)
Example reset_flow_keeps_old_password :
  let r := @consumeResetToken Fixture.platform Fixture.raw_reset_token
             "newpass" Fixture.reset_requested in
  fst r = Throw (Error "invalid_current_password")
  /\ fst (@authenticate Fixture.platform "vin" "newpass" (snd r))
     = Throw (Error "invalid_credentials")
  /\ exists session,
       fst (@authenticate Fixture.platform "vin" "secret" (snd r))
       = Return session.
Proof.
  cbv zeta. split; [|split].
  - vm_compute. reflexivity.
  - vm_compute. reflexivity.
  - eexists. vm_compute. reflexivity.
Qed.

(** * Further properties *)

(** ** Hexadecimal and the stored form of a password *)

Lemma below_16 (f : N -> bool) :
  forallb f (map N.of_nat (seq 0 16)) = true ->
  forall n, (n < 16)%N -> f n = true.
Proof.
  intros H n Hn.
  rewrite forallb_forall in H.
  apply H.
  rewrite <- (N2Nat.id n).
  apply in_map, in_seq. lia.
Qed.

Lemma hex_digit_value n :
  (n < 16)%N ->
  hex_value (hex_digit n) = Some n
  /\ Ascii.eqb (hex_digit n) "$" = false.
Proof.
  intros Hn.
  pose (f := fun n =>
    match hex_value (hex_digit n) with
    | Some m => N.eqb m n
    | None => false
    end
    && negb (Ascii.eqb (hex_digit n) "$")).
  assert (Hf : f n = true)
    by (apply below_16; [vm_compute; reflexivity | exact Hn]).
  unfold f in Hf. apply andb_true_iff in Hf as [H1 H2].
  apply negb_true_iff in H2.
  destruct (hex_value (hex_digit n)) as [m|]; [|discriminate].
  apply N.eqb_eq in H1. now subst m.
Qed.

Lemma toString_hex_chars b : toString_hex b = chars (hex_chars b).
Proof.
  induction b as [|x b IH]; [reflexivity|].
  cbn [toString_hex hex_chars chars]. now rewrite IH.
Qed.

Lemma hex_chars_no_dollar b :
  Forall (fun c => Ascii.eqb c "$" = false) (hex_chars b).
Proof.
  induction b as [|x b IH]; cbn [hex_chars]; [constructor|].
  pose proof (Byte.to_N_bounded x).
  constructor; [apply hex_digit_value; lia|].
  constructor; [apply hex_digit_value; lia | exact IH].
Qed.

(** Decoding the hexadecimal text of a buffer gives the buffer back. *)
Lemma Buffer_from_hex_toString_hex b : Buffer_from_hex (toString_hex b) = b.
Proof.
  induction b as [|x b IH]; [reflexivity|].
  cbn [toString_hex Buffer_from_hex].
  pose proof (Byte.to_N_bounded x).
  destruct (hex_digit_value (Byte.to_N x / 16)) as [-> _]; [lia|].
  destruct (hex_digit_value (Byte.to_N x mod 16)) as [-> _]; [lia|].
  rewrite IH. f_equal. apply byte_of_N_eq. lia.
Qed.

Lemma Buffer_eqb_eq a b : Buffer_eqb a b = true <-> a = b.
Proof.
  split; [|intros ->; apply Buffer_eqb_refl].
  revert b. induction a as [|x a IH]; intros [|y b] H;
    try reflexivity; try discriminate H.
  cbn in H. apply andb_true_iff in H as [Hxy Hab].
  apply Byte.byte_dec_bl in Hxy. now rewrite Hxy, (IH b Hab).
Qed.

Lemma toString_hex_nonempty b : b <> [] -> falsy (toString_hex b) = false.
Proof. destruct b; [now intros H; elim H | reflexivity]. Qed.

Lemma split_hex_dollar_hex a b :
  split "$" (toString_hex a ++ "$" ++ toString_hex b)
  = [toString_hex a; toString_hex b].
Proof.
  rewrite !toString_hex_chars. cbn [append].
  rewrite split_chars by apply hex_chars_no_dollar.
  now rewrite split_chars_last by apply hex_chars_no_dollar.
Qed.

Section PasswordRoundTrip.
Context {P : Platform}.

Lemma _hashPassword_runs password w :
  _hashPassword password w
  = (Return (stored_form (drawn_bytes w 16) password),
     mkWorld (file w) (_db w) (clock w) (reads w) (entropy w) (drawn w + 16)).
Proof. reflexivity. Qed.

(** What [_verifyPassword] answers on a stored form that [_hashPassword]
    built from a salt that is not empty. *)
Lemma _verifyPassword_stored_form saltBytes password supplied :
  scrypt_sized ->
  saltBytes <> [] ->
  supplied <> "" ->
  _verifyPassword (stored_form saltBytes password) supplied
  = Return
      (Buffer_eqb (scryptSync password (toString_hex saltBytes) 64)
         (scryptSync supplied (toString_hex saltBytes) 64)).
Proof.
  intros Hsize Hsalt Hsup.
  unfold _verifyPassword, stored_form.
  assert (Hlen := Hsize password (toString_hex saltBytes) 64%nat).
  assert (Hkey : scryptSync password (toString_hex saltBytes) 64 <> []).
  { intros E. rewrite E in Hlen. discriminate Hlen. }
  assert (Hstored :
    falsy (toString_hex saltBytes ++ "$"
           ++ toString_hex (scryptSync password (toString_hex saltBytes) 64))
    = false).
  { destruct saltBytes; [now elim Hsalt | reflexivity]. }
  rewrite Hstored, (falsy_false _ Hsup). cbn [orb].
  rewrite split_hex_dollar_hex. cbn [nth_error].
  rewrite (toString_hex_nonempty _ Hsalt), (toString_hex_nonempty _ Hkey).
  cbn [orb].
  rewrite Buffer_from_hex_toString_hex.
  unfold timingSafeEqual.
  now rewrite Hlen, (Hsize supplied), Nat.eqb_refl.
Qed.

(** X1. For the stored form that [_hashPassword] returns for a password,
    and any supplied password that is not empty, [_verifyPassword] does not
    throw and answers [true] exactly when scrypt derives the same key from
    both under the stored salt; for the password itself it answers
    [true]. Hashing touches neither file nor cache. *)
Theorem hashPassword_verifyPassword (password supplied : string) (w : World) :
  scrypt_sized ->
  supplied <> "" ->
  exists stored salt,
    fst (_hashPassword password w) = Return stored
    /\ nth_error (split "$" stored) 0 = Some salt
    /\ file (snd (_hashPassword password w)) = file w
    /\ _db (snd (_hashPassword password w)) = _db w
    /\ (_verifyPassword stored supplied = Return true
        <-> scryptSync password salt 64 = scryptSync supplied salt 64)
    /\ (_verifyPassword stored supplied = Return true
        \/ _verifyPassword stored supplied = Return false)
    /\ (password <> "" -> _verifyPassword stored password = Return true).
Proof.
  intros Hsize Hsup.
  exists (stored_form (drawn_bytes w 16) password),
    (toString_hex (drawn_bytes w 16)).
  rewrite _hashPassword_runs. cbn [fst snd file _db].
  assert (Hsalt : drawn_bytes w 16 <> []) by discriminate.
  split; [reflexivity|].
  split; [unfold stored_form; now rewrite split_hex_dollar_hex|].
  repeat split.
  - rewrite (_verifyPassword_stored_form _ _ _ Hsize Hsalt Hsup).
    intros H. injection H as H. now apply Buffer_eqb_eq.
  - rewrite (_verifyPassword_stored_form _ _ _ Hsize Hsalt Hsup).
    intros H. f_equal. now apply Buffer_eqb_eq.
  - rewrite (_verifyPassword_stored_form _ _ _ Hsize Hsalt Hsup).
    destruct (Buffer_eqb _ _); [now left | now right].
  - intros Hpw.
    rewrite (_verifyPassword_stored_form _ _ _ Hsize Hsalt Hpw).
    now rewrite Buffer_eqb_refl.
Qed.

End PasswordRoundTrip.

(** ** More on tokens *)

Lemma url_char_safe n : (n < 64)%N -> url_safe (url_char n) = true.
Proof.
  intros Hn.
  apply (below_64 (fun n => url_safe (url_char n))); [|exact Hn].
  vm_compute. reflexivity.
Qed.

(** X2. Whatever it encodes, [base64UrlEncode] writes letters, digits, '-'
    and '_' only: no '+', '/', '=' and no '.', so the three segments of a
    token are found again by splitting it at its dots. *)
Theorem base64UrlEncode_url_safe (src : BufferSource) :
  forallb url_safe (list_ascii_of_string (base64UrlEncode src)) = true
  /\ forall rest,
       split "." (base64UrlEncode src ++ String "." rest)
       = base64UrlEncode src :: split "." rest.
Proof.
  split; [|intros rest; apply split_encoded].
  change (base64UrlEncode src)
    with (base64UrlEncode (OfBuffer (Buffer_from src))).
  rewrite base64UrlEncode_chars.
  pose proof (sextets_of_bytes_bound (Buffer_from src)) as H.
  induction H as [|n l Hn Hl IH]; [reflexivity|].
  cbn [map chars list_ascii_of_string forallb].
  now rewrite (url_char_safe n Hn), IH.
Qed.

Lemma obj_get_set_other k k' v fields :
  String.eqb k' k = false ->
  obj_get k (obj_set k' v fields) = obj_get k fields.
Proof.
  intros Hk. induction fields as [|[k0 v0] r IH]; cbn.
  - now rewrite Hk.
  - destruct (String.eqb k0 k') eqn:E0; cbn.
    + apply String.eqb_eq in E0. subst k0. now rewrite Hk.
    + now rewrite IH.
Qed.

Section TokenRoundTrip.
Context {P : Platform}.

(** X3. A token that [_createToken] made, with an expiry other than 0, is
    accepted by [_verifyToken] with the payload it was made from at every
    clock reading up to and including the expiry, and rejected at every
    later one. *)
Theorem createToken_verifyToken
    (payloadObj : list (string * json)) (ttl : Z) (w w' : World) :
  let t := clock w (S (reads w)) in
  let fields := payload_of payloadObj ttl (clock w (reads w)) t in
  json_faithful fields ->
  signing_platform ->
  (t + ttl)%Z <> 0%Z ->
  exists token,
    fst (_createToken payloadObj ttl w) = Return token
    /\ obj_get "iat" fields = Some (JNum (clock w (reads w)))
    /\ obj_get "exp" fields = Some (JNum (t + ttl))
    /\ ((clock w' (reads w') <= t + ttl)%Z ->
        fst (_verifyToken token w') = Return (Some (JObj fields)))
    /\ ((t + ttl < clock w' (reads w'))%Z ->
        fst (_verifyToken token w') = Return None).
Proof.
  intros t fields [Hjson Htext] [Hheader Hsign] Hexp0.
  exists (token_of (JObj fields)).
  assert (Hexp : obj_get "exp" fields = Some (JNum (t + ttl)))
    by (unfold fields, payload_of; now rewrite obj_get_assign_exp).
  split; [now rewrite _createToken_runs|].
  split.
  { unfold fields, payload_of, Object_assign at 1. cbn [fold_left fst snd].
    rewrite obj_get_set_other by reflexivity. apply obj_get_set. }
  split; [exact Hexp|].
  split; intros Hnow.
  - now rewrite (_verifyToken_accepts fields (t + ttl) w').
  - rewrite (_verifyToken_token_of fields w' Hjson), Hexp.
    destruct (falsy _ || falsy _ || falsy _); [reflexivity|].
    cbn [truthy_opt truthy gt_value].
    replace (t + ttl =? 0)%Z with false by lia.
    cbn [negb fst].
    now replace (clock w' (reads w') >? t + ttl)%Z with true by lia.
Qed.


End TokenRoundTrip.

(** ** Registration and signing in *)

Lemma find_app_last {A} (p : A -> bool) l x :
  find p l = None -> find p (l ++ [x]) = if p x then Some x else None.
Proof.
  induction l as [|a l IH]; cbn; [reflexivity|].
  destruct (p a); [discriminate | exact IH].
Qed.

Section SigningIn.
Context {P : Platform}.

Lemma register_runs username email password w db :
  file w = Some db ->
  username <> "" -> email <> "" -> password <> "" ->
  find (fun u => String.eqb (User.username u) (toLowerCase username))
    (users db) = None ->
  find (fun u => String.eqb (User.email u) (toLowerCase email))
    (users db) = None ->
  register username email password w
  = (Return (public_part (registered_user username email password w)),
     mkWorld
       (Some (mkDB (users db ++ [registered_user username email password w])
                (refreshTokens db) (resetTokens db)))
       (Some (mkDB (users db ++ [registered_user username email password w])
                (refreshTokens db) (resetTokens db)))
       (clock w) (S (reads w)) (entropy w) (drawn w + 16 + 16)).
Proof.
  intros Hfile Hu He Hp Fn Fe.
  destruct w as [f c clk r en n]. cbn [file] in Hfile. subst f.
  unfold register.
  rewrite (falsy_false _ Hu), (falsy_false _ He), (falsy_false _ Hp).
  cbn [orb]. cbv zeta.
  unfold bind, _load, fs_readFile, set_this_db, this_db, bind.
  cbn [file _db clock reads entropy drawn]. rewrite Fn, Fe.
  unfold registered_user, new_user_id, public_part, drawn_bytes, skip_bytes,
    stored_form.
  cbn [file _db clock reads entropy drawn User.id User.username User.email].
  unfold randomUUID, _hashPassword, randomBytes, nowSeconds, _save, this_db,
    fs_writeFile, bind, ret.
  cbn [file _db clock reads entropy drawn].
  now destruct has_randomUUID.
Qed.

Lemma authenticate_runs usernameOrEmail password w db user :
  file w = Some db ->
  usernameOrEmail <> "" -> password <> "" ->
  find (fun u =>
          String.eqb (User.username u) (toLowerCase usernameOrEmail)
          || String.eqb (User.email u) (toLowerCase usernameOrEmail))
    (users db) = Some user ->
  _verifyPassword (User.password user) password = Return true ->
  authenticate usernameOrEmail password w
  = (Return
       (Session.mk (token_of (JObj (access_fields (User.id user) w)))
          (token_of (JObj (refresh_fields (User.id user) w)))
          (public_part user)),
     mkWorld
       (Some (mkDB (users db)
                (refreshTokens db
                   ++ [RefreshToken.mk
                         (token_of (JObj (refresh_fields (User.id user) w)))
                         (User.id user)
                         (clock w (S (S (S (S (reads w)))))
                          + REFRESH_TOKEN_EXP)])
                (resetTokens db)))
       (Some (mkDB (users db)
                (refreshTokens db
                   ++ [RefreshToken.mk
                         (token_of (JObj (refresh_fields (User.id user) w)))
                         (User.id user)
                         (clock w (S (S (S (S (reads w)))))
                          + REFRESH_TOKEN_EXP)])
                (resetTokens db)))
       (clock w) (S (S (S (S (S (reads w)))))) (entropy w) (drawn w)).
Proof.
  intros Hfile Hu Hp Hfind Hpw.
  destruct w as [f c clk r en n]. cbn [file] in Hfile. subst f.
  unfold authenticate.
  rewrite (falsy_false _ Hu), (falsy_false _ Hp).
  cbn [orb]. cbv zeta.
  unfold bind, _load, fs_readFile, set_this_db, this_db, bind.
  cbn [file _db clock reads entropy drawn]. rewrite Hfind.
  unfold lift. rewrite Hpw. cbn [negb].
  repeat (rewrite _createToken_runs; unfold tick;
          cbn [file _db clock reads entropy drawn]).
  unfold nowSeconds, _save, this_db, fs_writeFile, bind, ret.
  cbn [file _db clock reads entropy drawn].
  reflexivity.
Qed.


Lemma drawn_bytes_nonempty w n : drawn_bytes w (S n) <> [].
Proof. discriminate. Qed.

(** X5. Given three fields that are not empty, a file, and no stored user
    with the lower-cased user name or the lower-cased address, [register]
    returns the public part of a new user and appends that user, and
    nothing else, to the file: the names are the lower-cased ones, the
    creation time is the clock's reading, and the stored password form
    verifies against the password given. *)
Theorem register_appends_user
    (username email password : string) (w : World) (db : DB) :
  file w = Some db ->
  username <> "" -> email <> "" -> password <> "" ->
  (forall u, In u (users db) -> User.username u <> toLowerCase username) ->
  (forall u, In u (users db) -> User.email u <> toLowerCase email) ->
  scrypt_sized ->
  exists user,
    fst (register username email password w) = Return (public_part user)
    /\ file (snd (register username email password w))
       = Some (mkDB (users db ++ [user]) (refreshTokens db) (resetTokens db))
    /\ User.username user = toLowerCase username
    /\ User.email user = toLowerCase email
    /\ User.createdAt user = clock w (reads w)
    /\ _verifyPassword (User.password user) password = Return true.
Proof.
  intros Hfile Hu He Hp Hname Hmail Hsize.
  exists (registered_user username email password w).
  rewrite (register_runs username email password w db Hfile Hu He Hp).
  - cbn [fst snd file].
    repeat split.
    unfold registered_user. cbn [User.password].
    rewrite (_verifyPassword_stored_form _ _ _ Hsize
               (drawn_bytes_nonempty _ _) Hp).
    now rewrite Buffer_eqb_refl.
  - apply find_all_false. intros x Hx. apply String.eqb_neq. now apply Hname.
  - apply find_all_false. intros x Hx. apply String.eqb_neq. now apply Hmail.
Qed.

(** X6. After such a registration, when also no stored user has the new
    user name as address or the new address as user name, [authenticate]
    succeeds with the password given, under the user name and under the
    address, and returns the user that [register] returned. *)
Theorem register_then_authenticate
    (username email password : string) (w : World) (db : DB) :
  file w = Some db ->
  username <> "" -> email <> "" -> password <> "" ->
  (forall u, In u (users db) ->
             User.username u <> toLowerCase username
             /\ User.email u <> toLowerCase username
             /\ User.username u <> toLowerCase email
             /\ User.email u <> toLowerCase email) ->
  scrypt_sized ->
  let w1 := snd (register username email password w) in
  exists user byName byEmail,
    fst (register username email password w) = Return user
    /\ fst (authenticate username password w1) = Return byName
    /\ Session.user byName = user
    /\ fst (authenticate email password w1) = Return byEmail
    /\ Session.user byEmail = user.
Proof.
  intros Hfile Hu He Hp Hnone Hsize w1.
  set (user := registered_user username email password w).
  assert (Hrun := register_runs username email password w db Hfile Hu He Hp).
  rewrite !find_all_false in Hrun;
    try (intros x Hx; apply String.eqb_neq; now apply (Hnone x Hx)).
  specialize (Hrun eq_refl eq_refl). fold user in Hrun.
  assert (Hfile1 : file w1
                   = Some (mkDB (users db ++ [user]) (refreshTokens db)
                             (resetTokens db)))
    by (unfold w1; now rewrite Hrun).
  assert (Hpw : _verifyPassword (User.password user) password = Return true).
  { unfold user, registered_user. cbn [User.password].
    rewrite (_verifyPassword_stored_form _ _ _ Hsize
               (drawn_bytes_nonempty _ _) Hp).
    now rewrite Buffer_eqb_refl. }
  assert (Hfound : forall key,
    (key = toLowerCase username \/ key = toLowerCase email) ->
    find (fun u => String.eqb (User.username u) key
                   || String.eqb (User.email u) key)
      (users db ++ [user]) = Some user).
  { intros key Hkey. rewrite find_app_last.
    - unfold user, registered_user. cbn [User.username User.email].
      destruct Hkey as [->| ->]; rewrite String.eqb_refl;
        now rewrite ?orb_true_r.
    - apply find_all_false. intros x Hx.
      destruct (Hnone x Hx) as (H1 & H2 & H3 & H4).
      apply orb_false_iff.
      destruct Hkey as [->| ->]; split; now apply String.eqb_neq. }
  exists (public_part user),
    (Session.mk (token_of (JObj (access_fields (User.id user) w1)))
       (token_of (JObj (refresh_fields (User.id user) w1))) (public_part user)),
    (Session.mk (token_of (JObj (access_fields (User.id user) w1)))
       (token_of (JObj (refresh_fields (User.id user) w1))) (public_part user)).
  split; [now rewrite Hrun|].
  rewrite (authenticate_runs username password w1 _ user Hfile1 Hu Hp
             (Hfound _ (or_introl eq_refl)) Hpw).
  rewrite (authenticate_runs email password w1 _ user Hfile1 He Hp
             (Hfound _ (or_intror eq_refl)) Hpw).
  now cbn [fst Session.user].
Qed.

(** X7. When [authenticate] finds a user and the password verifies, it
    returns that user's public part with two tokens, and the file it leaves
    differs from the one it found by one refresh record at the end: the
    returned refresh token, the user's id, and an expiry seven days after
    the clock's reading. Users and reset tokens are as they were. *)
Theorem authenticate_appends_record
    (usernameOrEmail password : string) (w : World) (db : DB)
    (user : User.t) :
  file w = Some db ->
  usernameOrEmail <> "" -> password <> "" ->
  find (fun u =>
          String.eqb (User.username u) (toLowerCase usernameOrEmail)
          || String.eqb (User.email u) (toLowerCase usernameOrEmail))
    (users db) = Some user ->
  _verifyPassword (User.password user) password = Return true ->
  exists session,
    fst (authenticate usernameOrEmail password w) = Return session
    /\ Session.user session = public_part user
    /\ file (snd (authenticate usernameOrEmail password w))
       = Some
           (mkDB (users db)
              (refreshTokens db
                 ++ [RefreshToken.mk (Session.refreshToken session)
                       (User.id user)
                       (clock w (4 + reads w) + 7 * 24 * 3600)])
              (resetTokens db)).
Proof.
  intros Hfile Hu Hp Hfind Hpw.
  eexists.
  rewrite (authenticate_runs usernameOrEmail password w db user
             Hfile Hu Hp Hfind Hpw).
  cbn [fst snd file Session.user Session.refreshToken].
  repeat split.
Qed.

(** X8. The access token that [authenticate] returns is accepted by
    [verifyAccessToken] until 900 seconds after the reading it was made
    at, with the user's id as subject; the refresh token it returns is not
    accepted as an access token. *)
Theorem authenticate_tokens_verify
    (usernameOrEmail password : string) (w w' : World) (db : DB)
    (user : User.t) :
  file w = Some db ->
  usernameOrEmail <> "" -> password <> "" ->
  find (fun u =>
          String.eqb (User.username u) (toLowerCase usernameOrEmail)
          || String.eqb (User.email u) (toLowerCase usernameOrEmail))
    (users db) = Some user ->
  _verifyPassword (User.password user) password = Return true ->
  json_faithful (access_fields (User.id user) w) ->
  json_faithful (refresh_fields (User.id user) w) ->
  signing_platform ->
  (clock w (S (reads w)) + 900)%Z <> 0%Z ->
  (clock w' (reads w') <= clock w (S (reads w)) + 900)%Z ->
  exists session payload,
    fst (authenticate usernameOrEmail password w) = Return session
    /\ fst (verifyAccessToken (Session.accessToken session) w')
       = Return (Some (JObj payload))
    /\ obj_get "sub" payload = Some (JStr (User.id user))
    /\ obj_get "type" payload = Some (JStr "access")
    /\ obj_get "exp" payload = Some (JNum (clock w (S (reads w)) + 900))
    /\ fst (verifyAccessToken (Session.refreshToken session) w')
       = Return None.
Proof.
  intros Hfile Hu Hp Hfind Hpw [Hja Hta] [Hjr Htr] [Hh Hs] Hexp0 Hnow.
  eexists. exists (access_fields (User.id user) w).
  rewrite (authenticate_runs usernameOrEmail password w db user
             Hfile Hu Hp Hfind Hpw).
  cbn [fst].
  split; [reflexivity|].
  cbn [Session.accessToken Session.refreshToken].
  split.
  { unfold verifyAccessToken, bind.
    rewrite (_verifyToken_accepts (access_fields (User.id user) w)
               (clock w (S (reads w)) + 900) w' Hja Hh Hta Hs);
      [reflexivity | reflexivity | exact Hexp0 | exact Hnow]. }
  split; [reflexivity|].
  split; [reflexivity|].
  split; [reflexivity|].
  now apply verifyAccessToken_refresh_typed.
Qed.

End SigningIn.

(** ** Sessions and passwords *)

Lemma filter_filter_same {A} (p : A -> bool) l :
  filter p (filter p l) = filter p l.
Proof.
  induction l as [|a l IH]; [reflexivity|].
  cbn. destruct (p a) eqn:E; cbn; [now rewrite E, IH | exact IH].
Qed.

Lemma find_update_first {A} (p : A -> bool) (f : A -> A) l x :
  find p l = Some x -> p (f x) = true ->
  find p (update_first p f l) = Some (f x).
Proof.
  intros Hfind Hp. induction l as [|a l IH]; [discriminate|].
  cbn in Hfind |- *. destruct (p a) eqn:E.
  - injection Hfind as ->. cbn. now rewrite Hp.
  - cbn. rewrite E. now apply IH.
Qed.

Lemma map_identity_set_password p h l :
  map user_info (update_first p (User.set_password h) l) = map user_info l.
Proof.
  induction l as [|u l IH]; [reflexivity|].
  cbn. destruct (p u); cbn; [reflexivity | now rewrite IH].
Qed.

Section Sessions.
Context {P : Platform}.

Lemma token_of_nonempty payload : falsy (token_of payload) = false.
Proof.
  unfold token_of.
  now destruct (base64UrlEncode (OfString (JSON_stringify jwt_header))).
Qed.

(** X9. A refresh token that [_createToken] made with type ['refresh'],
    presented while its record and its own expiry both still hold, makes
    [refreshAccessToken] return a new access token for the same subject,
    expiring 900 seconds after the reading it is made at. The file is left
    as it was: the refresh token is neither replaced nor used up. *)
Theorem refreshAccessToken_issues
    (fields : list (string * json)) (exp : Z) (w : World) (db : DB)
    (stored : RefreshToken.t) :
  file w = Some db ->
  find (fun r => String.eqb (RefreshToken.token r) (token_of (JObj fields)))
    (refreshTokens db) = Some stored ->
  (clock w (reads w) <= RefreshToken.expiresAt stored)%Z ->
  json_faithful fields ->
  signing_platform ->
  obj_get "type" fields = Some (JStr "refresh") ->
  obj_get "exp" fields = Some (JNum exp) ->
  exp <> 0%Z ->
  (clock w (S (reads w)) <= exp)%Z ->
  exists issued,
    fst (refreshAccessToken (token_of (JObj fields)) w)
    = Return (token_of (JObj issued))
    /\ obj_get "sub" issued = obj_get "sub" fields
    /\ obj_get "type" issued = Some (JStr "access")
    /\ obj_get "exp" issued = Some (JNum (clock w (3 + reads w) + 900))
    /\ file (snd (refreshAccessToken (token_of (JObj fields)) w)) = Some db.
Proof.
  intros Hfile Hfind Hrec [Hjson Htext] [Hh Hs] Hty Hexp Hexp0 Hnow.
  exists (payload_of (field "sub" (obj_get "sub" fields)
                      ++ [("type", JStr "access")])
            ACCESS_TOKEN_EXP (clock w (2 + reads w)) (clock w (3 + reads w))).
  assert (Hrun :
    refreshAccessToken (token_of (JObj fields)) w
    = (Return
         (token_of
            (JObj
               (payload_of (field "sub" (obj_get "sub" fields)
                            ++ [("type", JStr "access")])
                  ACCESS_TOKEN_EXP (clock w (2 + reads w))
                  (clock w (3 + reads w))))),
       mkWorld (Some db) (Some db) (clock w) (4 + reads w) (entropy w)
         (drawn w))).
  { destruct w as [f c clk r en n]. cbn [file] in Hfile. subst f.
    cbn [clock reads] in Hrec, Hnow |- *.
    unfold refreshAccessToken. rewrite token_of_nonempty.
    unfold bind, _load, fs_readFile, set_this_db, this_db, bind.
    cbn [file _db clock reads entropy drawn]. rewrite Hfind.
    unfold nowSeconds. cbn [file _db clock reads entropy drawn].
    replace (clk r >? RefreshToken.expiresAt stored)%Z with false by lia.
    rewrite (_verifyToken_accepts fields exp _ Hjson Hh Htext Hs Hexp Hexp0)
      by exact Hnow.
    unfold tick. cbn [file _db clock reads entropy drawn truthy negb].
    unfold lift. cbn [get_prop]. rewrite Hty.
    cbn [option_eqb_str String.eqb Ascii.eqb Bool.eqb negb].
    rewrite _createToken_runs. reflexivity. }
  rewrite Hrun. cbn [fst snd file].
  split; [reflexivity|].
  split; [now destruct (obj_get "sub" fields)|].
  split; [now destruct (obj_get "sub" fields)|].
  split; [now destruct (obj_get "sub" fields) | reflexivity].
Qed.

(** X10. [revokeRefreshToken] returns, and removes from the file the
    records of the token it is given and nothing else; a later
    [refreshAccessToken] with that token throws [invalid_refresh_token],
    and revoking again changes nothing. *)
Theorem revokeRefreshToken_ends_session
    (refreshToken : string) (w : World) (db : DB) :
  file w = Some db ->
  refreshToken <> "" ->
  let w1 := snd (revokeRefreshToken refreshToken w) in
  fst (revokeRefreshToken refreshToken w) = Return tt
  /\ file w1
     = Some
         (mkDB (users db)
            (filter
               (fun r => negb (String.eqb (RefreshToken.token r) refreshToken))
               (refreshTokens db))
            (resetTokens db))
  /\ fst (refreshAccessToken refreshToken w1)
     = Throw (Error "invalid_refresh_token")
  /\ fst (revokeRefreshToken refreshToken w1) = Return tt
  /\ file (snd (revokeRefreshToken refreshToken w1)) = file w1.
Proof.
  intros Hfile Htok w1.
  assert (Hrun : forall w0 d,
    file w0 = Some d ->
    revokeRefreshToken refreshToken w0
    = (Return tt,
       mkWorld
         (Some
            (mkDB (users d)
               (filter
                  (fun r =>
                     negb (String.eqb (RefreshToken.token r) refreshToken))
                  (refreshTokens d))
               (resetTokens d)))
         (Some
            (mkDB (users d)
               (filter
                  (fun r =>
                     negb (String.eqb (RefreshToken.token r) refreshToken))
                  (refreshTokens d))
               (resetTokens d)))
         (clock w0) (reads w0) (entropy w0) (drawn w0))).
  { intros [f c clk r en n] d Hf. cbn [file] in Hf. subst f.
    unfold revokeRefreshToken, bind, _load, fs_readFile, set_this_db,
      this_db, _save, this_db, fs_writeFile, bind.
    now cbn [file _db clock reads entropy drawn]. }
  subst w1. rewrite (Hrun w db Hfile). cbn [fst snd].
  set (d1 := mkDB (users db)
               (filter
                  (fun r =>
                     negb (String.eqb (RefreshToken.token r) refreshToken))
                  (refreshTokens db))
               (resetTokens db)).
  set (w1 := mkWorld (Some d1) (Some d1) (clock w) (reads w) (entropy w)
               (drawn w)).
  split; [reflexivity|]. split; [reflexivity|].
  split.
  - unfold refreshAccessToken. rewrite (falsy_false _ Htok).
    unfold bind, _load, fs_readFile, set_this_db, this_db, bind.
    cbn [file _db clock reads entropy drawn refreshTokens w1 d1].
    now rewrite (find_filter_negb
                   (fun r => String.eqb (RefreshToken.token r) refreshToken)).
  - rewrite (Hrun w1 d1 eq_refl).
    cbn [fst snd file users refreshTokens resetTokens w1 d1].
    now rewrite filter_filter_same.
Qed.

Lemma changePassword_runs userId oldPassword newPassword w db user :
  file w = Some db ->
  userId <> "" -> oldPassword <> "" -> newPassword <> "" ->
  find (fun u => String.eqb (User.id u) userId) (users db) = Some user ->
  _verifyPassword (User.password user) oldPassword = Return true ->
  changePassword userId oldPassword newPassword w
  = (Return true,
     mkWorld
       (Some
          (mkDB (update_first (fun u => String.eqb (User.id u) userId)
                   (User.set_password
                      (stored_form (drawn_bytes w 16) newPassword))
                   (users db))
             (refreshTokens db) (resetTokens db)))
       (Some
          (mkDB (update_first (fun u => String.eqb (User.id u) userId)
                   (User.set_password
                      (stored_form (drawn_bytes w 16) newPassword))
                   (users db))
             (refreshTokens db) (resetTokens db)))
       (clock w) (reads w) (entropy w) (drawn w + 16)).
Proof.
  intros Hfile Hid Hold Hnew Hfind Hpw.
  destruct w as [f c clk r en n]. cbn [file] in Hfile. subst f.
  unfold changePassword.
  rewrite (falsy_false _ Hid), (falsy_false _ Hold), (falsy_false _ Hnew).
  cbn [orb].
  unfold bind, _load, fs_readFile, set_this_db, this_db, bind.
  cbn [file _db clock reads entropy drawn]. rewrite Hfind.
  unfold lift. rewrite Hpw. cbn [negb].
  rewrite _hashPassword_runs.
  unfold _save, this_db, fs_writeFile, bind, ret, drawn_bytes.
  now cbn [file _db clock reads entropy drawn].
Qed.

(** X11. Given the id of a stored user and that user's current password,
    [changePassword] returns [true] and replaces the stored password form
    of that user by one that verifies against the new password. Every
    user's id, names and creation time, the order of the users, and both
    token collections are as they were: refresh tokens issued under the
    old password stay in the file. *)
Theorem changePassword_replaces_password
    (userId oldPassword newPassword : string) (w : World) (db : DB)
    (user : User.t) :
  file w = Some db ->
  userId <> "" -> oldPassword <> "" -> newPassword <> "" ->
  find (fun u => String.eqb (User.id u) userId) (users db) = Some user ->
  _verifyPassword (User.password user) oldPassword = Return true ->
  scrypt_sized ->
  exists stored db',
    fst (changePassword userId oldPassword newPassword w) = Return true
    /\ file (snd (changePassword userId oldPassword newPassword w)) = Some db'
    /\ _verifyPassword stored newPassword = Return true
    /\ find (fun u => String.eqb (User.id u) userId) (users db')
       = Some (User.set_password stored user)
    /\ map user_info (users db') = map user_info (users db)
    /\ refreshTokens db' = refreshTokens db
    /\ resetTokens db' = resetTokens db.
Proof.
  intros Hfile Hid Hold Hnew Hfind Hpw Hsize.
  exists (stored_form (drawn_bytes w 16) newPassword),
    (mkDB (update_first (fun u => String.eqb (User.id u) userId)
             (User.set_password (stored_form (drawn_bytes w 16) newPassword))
             (users db))
       (refreshTokens db) (resetTokens db)).
  rewrite (changePassword_runs userId oldPassword newPassword w db user
             Hfile Hid Hold Hnew Hfind Hpw).
  cbn [fst snd file users refreshTokens resetTokens].
  split; [reflexivity|]. split; [reflexivity|].
  split.
  { rewrite (_verifyPassword_stored_form _ _ _ Hsize
               (drawn_bytes_nonempty _ _) Hnew).
    now rewrite Buffer_eqb_refl. }
  split.
  { apply find_update_first; [exact Hfind|].
    apply find_some in Hfind as [_ Hfind]. exact Hfind. }
  split; [apply map_identity_set_password|].
  split; reflexivity.
Qed.

End Sessions.

(** ** Reset tokens *)

Section ResetTokens.
Context {P : Platform}.

(** The digest under which a raw reset token is stored. *)
Lemma verifyResetToken_valid rawToken w db rec :
  file w = Some db ->
  rawToken <> "" ->
  find (fun r =>
          String.eqb (ResetToken.tokenHash r)
            (toString_hex (hmac_sha256 SECRET rawToken)))
    (resetTokens db) = Some rec ->
  (clock w (reads w) <= ResetToken.expiresAt rec)%Z ->
  verifyResetToken rawToken w
  = (Return (Some (ResetToken.userId rec)),
     mkWorld (Some db) (Some db) (clock w) (S (reads w)) (entropy w)
       (drawn w)).
Proof.
  intros Hfile Hraw Hfind Hexp.
  destruct w as [f c clk r en n]. cbn [file] in Hfile. subst f.
  cbn [clock reads] in Hexp |- *.
  unfold verifyResetToken. rewrite (falsy_false _ Hraw). cbv zeta.
  unfold bind, _load, fs_readFile, set_this_db, this_db, bind.
  cbn [file _db clock reads entropy drawn]. rewrite Hfind.
  unfold nowSeconds, ret. cbn [file _db clock reads entropy drawn].
  now replace (clk r >? ResetToken.expiresAt rec)%Z with false by lia.
Qed.

Lemma verifyResetToken_unknown rawToken w db :
  file w = Some db ->
  rawToken <> "" ->
  find (fun r =>
          String.eqb (ResetToken.tokenHash r)
            (toString_hex (hmac_sha256 SECRET rawToken)))
    (resetTokens db) = None ->
  verifyResetToken rawToken w
  = (Return None,
     mkWorld (Some db) (Some db) (clock w) (reads w) (entropy w) (drawn w)).
Proof.
  intros Hfile Hraw Hfind.
  destruct w as [f c clk r en n]. cbn [file] in Hfile. subst f.
  unfold verifyResetToken. rewrite (falsy_false _ Hraw). cbv zeta.
  unfold bind, _load, fs_readFile, set_this_db, this_db, bind.
  cbn [file _db clock reads entropy drawn]. now rewrite Hfind.
Qed.

(** X12. [generateResetToken] for the address of a stored user returns a
    raw token and an expiry one hour after the clock's reading, and
    appends one record to the file: the user's id, the HMAC digest of the
    raw token, the expiry. When no older record has that digest,
    [verifyResetToken] answers the user's id for the raw token at every
    reading up to the expiry, and leaves the file as it is: it checks the
    token without using it up. *)
Theorem generateResetToken_then_verify
    (email : string) (w : World) (db : DB) (user : User.t) :
  file w = Some db ->
  email <> "" ->
  find (fun u => String.eqb (User.email u) (toLowerCase email)) (users db)
  = Some user ->
  (forall r, In r (resetTokens db) ->
             ResetToken.tokenHash r
             <> toString_hex
                  (hmac_sha256 SECRET (toString_hex (drawn_bytes w 32)))) ->
  let w1 := snd (generateResetToken email w) in
  exists grant db1,
    fst (generateResetToken email w) = Return grant
    /\ ResetGrant.expiresAt grant = (clock w (reads w) + 3600)%Z
    /\ file w1 = Some db1
    /\ users db1 = users db
    /\ refreshTokens db1 = refreshTokens db
    /\ resetTokens db1
       = resetTokens db
           ++ [ResetToken.mk (User.id user)
                 (toString_hex
                    (hmac_sha256 SECRET (ResetGrant.resetToken grant)))
                 (ResetGrant.expiresAt grant)]
    /\ forall w2,
         file w2 = file w1 ->
         (clock w2 (reads w2) <= ResetGrant.expiresAt grant)%Z ->
         fst (verifyResetToken (ResetGrant.resetToken grant) w2)
         = Return (Some (User.id user))
         /\ file (snd (verifyResetToken (ResetGrant.resetToken grant) w2))
            = file w1.
Proof.
  intros Hfile Hmail Hfind Hfresh w1.
  set (raw := toString_hex (drawn_bytes w 32)) in *.
  set (digest := toString_hex (hmac_sha256 SECRET raw)) in *.
  set (rec := ResetToken.mk (User.id user) digest
                (clock w (reads w) + RESET_TOKEN_EXP)).
  set (db1 := mkDB (users db) (refreshTokens db) (resetTokens db ++ [rec])).
  assert (Hrun :
    generateResetToken email w
    = (Return (ResetGrant.mk raw (clock w (reads w) + RESET_TOKEN_EXP)),
       mkWorld (Some db1) (Some db1) (clock w) (S (reads w)) (entropy w)
         (drawn w + 32))).
  { destruct w as [f c clk r en n]. cbn [file] in Hfile. subst f.
    unfold generateResetToken. rewrite (falsy_false _ Hmail). cbv zeta.
    unfold bind, _load, fs_readFile, set_this_db, this_db, bind.
    cbn [file _db clock reads entropy drawn]. rewrite Hfind.
    unfold randomBytes, nowSeconds, _save, this_db, fs_writeFile, bind, ret.
    now cbn [file _db clock reads entropy drawn]. }
  exists (ResetGrant.mk raw (clock w (reads w) + RESET_TOKEN_EXP)), db1.
  subst w1. rewrite Hrun.
  cbn [fst snd file ResetGrant.expiresAt ResetGrant.resetToken].
  split; [reflexivity|]. split; [reflexivity|]. split; [reflexivity|].
  split; [reflexivity|]. split; [reflexivity|]. split; [reflexivity|].
  intros w2 Hfile2 Hnow.
  assert (Hraw : raw <> "").
  { unfold raw. intros E.
    pose proof (toString_hex_nonempty (drawn_bytes w 32)
                  (drawn_bytes_nonempty w 31)) as F.
    rewrite E in F. discriminate F. }
  rewrite (verifyResetToken_valid raw w2 db1 rec Hfile2 Hraw).
  - now split.
  - cbn [resetTokens db1]. rewrite find_app_last.
    + cbn [ResetToken.tokenHash rec]. fold digest.
      now rewrite String.eqb_refl.
    + apply find_all_false. intros r Hr. apply String.eqb_neq.
      now apply Hfresh.
  - exact Hnow.
Qed.

(** X13. For a raw token that is not empty: when no record has its digest,
    [verifyResetToken] answers [null] and leaves the file as it is; when
    the record found has an expiry before the clock's reading, it answers
    [null], removes every record with that digest from the file, and
    answers [null] again the next time. *)
Theorem verifyResetToken_rejects (rawToken : string) (w : World) (db : DB) :
  file w = Some db ->
  rawToken <> "" ->
  let digest := toString_hex (hmac_sha256 SECRET rawToken) in
  let w1 := snd (verifyResetToken rawToken w) in
  ((forall r, In r (resetTokens db) -> ResetToken.tokenHash r <> digest) ->
   fst (verifyResetToken rawToken w) = Return None /\ file w1 = Some db)
  /\ (forall rec,
        find (fun r => String.eqb (ResetToken.tokenHash r) digest)
          (resetTokens db) = Some rec ->
        (ResetToken.expiresAt rec < clock w (reads w))%Z ->
        fst (verifyResetToken rawToken w) = Return None
        /\ file w1
           = Some
               (mkDB (users db) (refreshTokens db)
                  (filter
                     (fun r =>
                        negb (String.eqb (ResetToken.tokenHash r) digest))
                     (resetTokens db)))
        /\ fst (verifyResetToken rawToken w1) = Return None
        /\ file (snd (verifyResetToken rawToken w1)) = file w1).
Proof.
  intros Hfile Hraw digest w1. split.
  - intros Hnone. subst w1.
    rewrite (verifyResetToken_unknown rawToken w db Hfile Hraw).
    + now split.
    + apply find_all_false. intros r Hr. apply String.eqb_neq.
      now apply Hnone.
  - intros rec Hfind Hexp.
    set (db1 := mkDB (users db) (refreshTokens db)
                  (filter
                     (fun r =>
                        negb (String.eqb (ResetToken.tokenHash r) digest))
                     (resetTokens db))).
    assert (Hrun :
      verifyResetToken rawToken w
      = (Return None,
         mkWorld (Some db1) (Some db1) (clock w) (S (reads w)) (entropy w)
           (drawn w))).
    { destruct w as [f c clk r en n]. cbn [file] in Hfile. subst f.
      cbn [clock reads] in Hexp |- *.
      unfold verifyResetToken. rewrite (falsy_false _ Hraw). cbv zeta.
      unfold bind, _load, fs_readFile, set_this_db, this_db, bind.
      cbn [file _db clock reads entropy drawn]. fold digest. rewrite Hfind.
      unfold nowSeconds, _save, this_db, fs_writeFile, bind, ret.
      cbn [file _db clock reads entropy drawn].
      now replace (clk r >? ResetToken.expiresAt rec)%Z with true by lia. }
    subst w1. rewrite Hrun. cbn [fst snd].
    set (w1 := mkWorld (Some db1) (Some db1) (clock w) (S (reads w))
                 (entropy w) (drawn w)).
    split; [reflexivity|]. split; [reflexivity|].
    rewrite (verifyResetToken_unknown rawToken w1 db1 eq_refl Hraw).
    + now split.
    + cbn [resetTokens db1]. fold digest.
      apply (find_filter_negb
               (fun r => String.eqb (ResetToken.tokenHash r) digest)).
Qed.

(** X14. With an empty raw token, or one whose digest no record has,
    [consumeResetToken] throws [invalid_reset_token] and the file is as it
    was. *)
Theorem consumeResetToken_rejects_unknown
    (rawToken newPassword : string) (w : World) (db : DB) :
  file w = Some db ->
  rawToken = ""
  \/ (forall r, In r (resetTokens db) ->
                ResetToken.tokenHash r
                <> toString_hex (hmac_sha256 SECRET rawToken)) ->
  fst (consumeResetToken rawToken newPassword w)
  = Throw (Error "invalid_reset_token")
  /\ file (snd (consumeResetToken rawToken newPassword w)) = Some db.
Proof.
  intros Hfile [->|Hnone].
  - now unfold consumeResetToken, verifyResetToken, bind.
  - destruct (String.eqb rawToken "") eqn:E.
    + apply String.eqb_eq in E. subst rawToken.
      now unfold consumeResetToken, verifyResetToken, bind.
    + apply String.eqb_neq in E.
      unfold consumeResetToken, bind.
      rewrite (verifyResetToken_unknown rawToken w db Hfile E).
      * now split.
      * apply find_all_false. intros r Hr. apply String.eqb_neq.
        now apply Hnone.
Qed.


(** X15. When the record of a raw token is found and has not expired, and
    the password given is the one the user's stored form verifies,
    [consumeResetToken] returns [true] and removes from the file every
    reset record of that user and every record with that digest: the token
    cannot be redeemed a second time, whatever password is given then.
    Users keep their ids, names and order; refresh tokens stay. *)
Theorem consumeResetToken_uses_up_token
    (rawToken newPassword : string) (w : World) (db : DB)
    (rec : ResetToken.t) (user : User.t) :
  file w = Some db ->
  rawToken <> "" -> newPassword <> "" ->
  find (fun r =>
          String.eqb (ResetToken.tokenHash r)
            (toString_hex (hmac_sha256 SECRET rawToken)))
    (resetTokens db) = Some rec ->
  (clock w (reads w) <= ResetToken.expiresAt rec)%Z ->
  ResetToken.userId rec <> "" ->
  find (fun u => String.eqb (User.id u) (ResetToken.userId rec)) (users db)
  = Some user ->
  _verifyPassword (User.password user) newPassword = Return true ->
  let w1 := snd (consumeResetToken rawToken newPassword w) in
  exists db1,
    fst (consumeResetToken rawToken newPassword w) = Return true
    /\ file w1 = Some db1
    /\ resetTokens db1
       = filter
           (fun r =>
              negb (String.eqb (ResetToken.tokenHash r)
                      (toString_hex (hmac_sha256 SECRET rawToken)))
              && negb (String.eqb (ResetToken.userId r)
                         (ResetToken.userId rec)))
           (resetTokens db)
    /\ (forall r, In r (resetTokens db1) ->
                  ResetToken.userId r <> ResetToken.userId rec
                  /\ ResetToken.tokenHash r
                     <> toString_hex (hmac_sha256 SECRET rawToken))
    /\ map user_info (users db1) = map user_info (users db)
    /\ refreshTokens db1 = refreshTokens db
    /\ forall anyPassword,
         fst (consumeResetToken rawToken anyPassword w1)
         = Throw (Error "invalid_reset_token").
Proof.
  intros Hfile Hraw Hnew Hrec Hexp Hid Huser Hpw w1.
  set (digest := toString_hex (hmac_sha256 SECRET rawToken)) in *.
  set (keep := fun r =>
                 negb (String.eqb (ResetToken.tokenHash r) digest)
                 && negb (String.eqb (ResetToken.userId r)
                            (ResetToken.userId rec))).
  set (w0 := mkWorld (Some db) (Some db) (clock w) (S (reads w)) (entropy w)
               (drawn w)).
  set (db1 := mkDB
                (update_first
                   (fun u => String.eqb (User.id u) (ResetToken.userId rec))
                   (User.set_password
                      (stored_form (drawn_bytes w0 16) newPassword))
                   (users db))
                (refreshTokens db) (filter keep (resetTokens db))).
  assert (Hrun :
    consumeResetToken rawToken newPassword w
    = (Return true,
       mkWorld (Some db1) (Some db1) (clock w) (S (reads w)) (entropy w)
         (drawn w + 16))).
  { unfold consumeResetToken, bind at 1.
    rewrite (verifyResetToken_valid rawToken w db rec Hfile Hraw Hrec Hexp).
    rewrite (falsy_false _ Hid). fold w0.
    unfold bind at 1.
    rewrite (changePassword_runs (ResetToken.userId rec) newPassword
               newPassword w0 db user eq_refl Hid Hnew Hnew Huser Hpw).
    unfold bind, this_db, set_this_db, _save, this_db, fs_writeFile, bind,
      ret.
    now cbn [file _db clock reads entropy drawn users refreshTokens
               resetTokens w0]. }
  exists db1. subst w1. rewrite Hrun. cbn [fst snd].
  set (w1 := mkWorld (Some db1) (Some db1) (clock w) (S (reads w))
               (entropy w) (drawn w + 16)).
  split; [reflexivity|]. split; [reflexivity|]. split; [reflexivity|].
  assert (Hleft : forall r, In r (resetTokens db1) ->
    ResetToken.userId r <> ResetToken.userId rec
    /\ ResetToken.tokenHash r <> digest).
  { intros r Hr. cbn [resetTokens db1] in Hr.
    apply filter_In in Hr as [_ Hr]. unfold keep in Hr.
    apply andb_true_iff in Hr as [H1 H2].
    apply negb_true_iff in H1, H2.
    split; now apply String.eqb_neq. }
  split; [exact Hleft|].
  split; [apply map_identity_set_password|].
  split; [reflexivity|].
  intros anyPassword.
  unfold consumeResetToken, bind.
  rewrite (verifyResetToken_unknown rawToken w1 db1 eq_refl Hraw);
    [reflexivity|].
  apply find_all_false. intros r Hr. apply String.eqb_neq.
  now apply Hleft.
Qed.

End ResetTokens.

(** ** Every call *)

Section EveryCall.
Context {P : Platform}.

(** [_verifyToken] returns, having read the clock once or not at all. *)
Lemma _verifyToken_shape token w :
  exists r,
    _verifyToken token w = (Return r, w)
    \/ _verifyToken token w = (Return r, tick w).
Proof.
  unfold _verifyToken, _verifyToken_body.
  destruct (nth_error (split "." token) 0) as [h|]; [|now exists None; left].
  destruct (nth_error (split "." token) 1) as [p|]; [|now exists None; left].
  destruct (nth_error (split "." token) 2) as [s|]; [|now exists None; left].
  destruct (falsy h || falsy p || falsy s); [now exists None; left|].
  unfold try_catch, bind, lift, ret.
  destruct (timingSafeEqual _ _) as [[|]|e]; cbn [negb];
    try (now exists None; left).
  destruct (JSON_parse _) as [v|]; [|now exists None; left].
  destruct (get_prop v "exp") as [exp|e]; [|now exists None; left].
  destruct (truthy_opt exp); [|now exists (Some v); left].
  unfold nowSeconds, tick.
  destruct (gt_value _ _); [now exists None; right | now exists (Some v); right].
Qed.

Ltac open_calls :=
  unfold init, register, authenticate, verifyAccessToken, refreshAccessToken,
    revokeRefreshToken, consumeResetToken, changePassword, generateResetToken,
    verifyResetToken, getUserById, cleanupExpired;
  cbv zeta;
  unfold _createToken, _hashPassword, randomUUID, _load, _save, try_catch,
    fs_access, fs_readFile, fs_writeFile, this_db, set_this_db, nowSeconds,
    randomBytes, lift, ret, throw, bind.

Ltac world_step :=
  cbn [file _db clock reads entropy drawn fst snd negb orb andb
       option_map users refreshTokens resetTokens threw stored_users tick]
    in *.

Ltac case_step :=
  match goal with
  | |- context [_verifyToken ?t ?w0] =>
      let r := fresh "r" in
      let E := fresh "E" in
      destruct (_verifyToken_shape t w0) as [r [E|E]]; rewrite E
  | |- context [match ?x with _ => _ end] =>
      lazymatch x with
      | context [match _ with _ => _ end] => fail
      | _ => destruct x eqn:?
      end
  end.

Ltac crunch := world_step; repeat (case_step; world_step).

(** X17. A call that throws has changed no user: whatever it did to the
    token collections before it threw, the users in the file are the ones
    that were there, passwords included. *)
Theorem failed_call_keeps_users (c : call) (w : World) :
  fails c w = true ->
  stored_users (exec c w) = stored_users w.
Proof.
  destruct w as [f d clk r en n].
  destruct c; cbn [fails exec]; open_calls; crunch;
    intros; try discriminate; reflexivity.
Qed.


Lemma filter_incl_self {A} (p : A -> bool) l : incl (filter p l) l.
Proof. intros x Hx. now apply filter_In in Hx. Qed.

(** X18. No call removes, reorders or renames a stored user: the ids,
    names and creation times of the users in the file before a call are,
    in the same order, those of the file after it, followed by at most one
    new user. *)
Theorem users_only_grow (c : call) (w : World) (db : DB) :
  file w = Some db ->
  exists db' extra,
    file (exec c w) = Some db'
    /\ map user_info (users db') = map user_info (users db) ++ extra
    /\ (List.length extra <= 1)%nat.
Proof.
  intros Hfile.
  destruct w as [f d clk r en n]. cbn [file] in Hfile. subst f.
  destruct c; cbn [exec]; open_calls; crunch;
    eexists; eexists;
    (split; [reflexivity|]); cbn [users];
    first
      [ instantiate (1 := []); split; [now rewrite app_nil_r | cbn; lia]
      | rewrite map_app; split; [reflexivity | cbn; lia]
      | rewrite map_identity_set_password; instantiate (1 := []);
        split; [now rewrite app_nil_r | cbn; lia] ].
Qed.

(** X19. Only [authenticate] adds a refresh record and only
    [generateResetToken] adds a reset record: after any other call, every
    record of the kind in the file was in the file before. *)
Theorem records_only_added_on_request (c : call) (w : World) (db db' : DB) :
  file w = Some db ->
  file (exec c w) = Some db' ->
  ((forall u p, c <> Authenticate u p) ->
   incl (refreshTokens db') (refreshTokens db))
  /\ ((forall e, c <> GenerateResetToken e) ->
      incl (resetTokens db') (resetTokens db)).
Proof.
  intros Hfile.
  destruct w as [f d clk r en n]. cbn [file] in Hfile. subst f.
  destruct c; cbn [exec]; open_calls; crunch;
    intros Hafter; injection Hafter as <-;
    cbn [refreshTokens resetTokens];
    (split; intros Hc;
     first [ apply incl_refl
           | apply filter_incl_self
           | exfalso; eapply Hc; reflexivity ]).
Qed.

(** X20. Before [init] has run there is no file, and no other call makes
    one: every call but [init] leaves the file missing. *)
Theorem only_init_creates_the_file (c : call) (w : World) :
  file w = None ->
  c <> Init ->
  file (exec c w) = None.
Proof.
  intros Hfile Hc.
  destruct w as [f d clk r en n]. cbn [file] in Hfile. subst f.
  destruct c; [now elim Hc | ..]; cbn [exec]; open_calls; crunch;
    reflexivity.
Qed.

End EveryCall.

(** ** Housekeeping and lookups *)

Section Housekeeping.
Context {P : Platform}.

(** X16. [cleanupExpired] returns and leaves the users alone; of the
    refresh and reset records it keeps, in their order, exactly those whose
    expiry is later than the clock's reading. A record that expires at the
    very reading is removed. *)
Theorem cleanupExpired_keeps_live (w : World) (db : DB) :
  file w = Some db ->
  let now := clock w (reads w) in
  exists db',
    fst (cleanupExpired w) = Return tt
    /\ file (snd (cleanupExpired w)) = Some db'
    /\ users db' = users db
    /\ refreshTokens db'
       = filter (fun r => (RefreshToken.expiresAt r >? now)%Z)
           (refreshTokens db)
    /\ resetTokens db'
       = filter (fun r => (ResetToken.expiresAt r >? now)%Z) (resetTokens db)
    /\ (forall r, In r (refreshTokens db') <->
                  In r (refreshTokens db)
                  /\ (now < RefreshToken.expiresAt r)%Z)
    /\ (forall r, In r (resetTokens db') <->
                  In r (resetTokens db) /\ (now < ResetToken.expiresAt r)%Z).
Proof.
  intros Hfile now.
  destruct w as [f c clk r en n]. cbn [file] in Hfile. subst f.
  cbn [clock reads] in now.
  eexists.
  unfold cleanupExpired, bind, _load, fs_readFile, set_this_db, this_db,
    nowSeconds, _save, this_db, fs_writeFile, bind.
  cbn [file _db clock reads entropy drawn fst snd users refreshTokens
         resetTokens].
  split; [reflexivity|]. split; [reflexivity|].
  cbn [users refreshTokens resetTokens]. fold now.
  split; [reflexivity|]. split; [reflexivity|]. split; [reflexivity|].
  split; intros x; rewrite filter_In;
    (split; intros [H1 H2]; (split; [exact H1|]); lia).
Qed.


(** X22. [getUserById] leaves the file as it is. What it returns is the
    id, names and creation time of a stored user with the id asked for, and
    it returns [null] exactly when no stored user has that id. *)
Theorem getUserById_reads (id : string) (w : World) (db : DB) :
  file w = Some db ->
  file (snd (getUserById id w)) = Some db
  /\ (exists r, fst (getUserById id w) = Return r)
  /\ (forall info,
        fst (getUserById id w) = Return (Some info) ->
        exists u, In u (users db) /\ User.id u = id /\ info = user_info u)
  /\ (fst (getUserById id w) = Return None <->
      forall u, In u (users db) -> User.id u <> id).
Proof.
  intros Hfile.
  destruct w as [f c clk r en n]. cbn [file] in Hfile. subst f.
  unfold getUserById, bind, _load, fs_readFile, set_this_db, this_db, bind,
    ret.
  cbn [file _db clock reads entropy drawn].
  destruct (find (fun x => String.eqb (User.id x) id) (users db)) as [u|]
    eqn:Hfind; cbn [fst snd file].
  - apply find_some in Hfind as [Hin Hid]. apply String.eqb_eq in Hid.
    split; [reflexivity|]. split; [now eexists|]. split.
    + intros info H. injection H as <-. now exists u.
    + split; [discriminate|]. intros H. now elim (H u Hin).
  - split; [reflexivity|]. split; [now eexists|]. split; [discriminate|].
    split; [|reflexivity]. intros _ u Hu.
    apply String.eqb_neq. exact (find_none _ _ Hfind u Hu).
Qed.

(** X23. [register] compares a new user name with the stored user names
    only. When a stored user has the new user name as address, the
    registration still succeeds, and [authenticate] under that name then
    checks the password against the older user: if it is not that user's
    password, the newly registered user is refused with
    [invalid_credentials]. *)
Theorem register_name_shadowed_by_address
    (username email password : string) (w : World) (db : DB)
    (older : User.t) :
  file w = Some db ->
  username <> "" -> email <> "" -> password <> "" ->
  (forall u, In u (users db) -> User.username u <> toLowerCase username) ->
  (forall u, In u (users db) -> User.email u <> toLowerCase email) ->
  find (fun u => String.eqb (User.email u) (toLowerCase username)) (users db)
  = Some older ->
  _verifyPassword (User.password older) password = Return false ->
  let w1 := snd (register username email password w) in
  exists user,
    fst (register username email password w) = Return user
    /\ PublicUser.username user = toLowerCase username
    /\ fst (authenticate username password w1)
       = Throw (Error "invalid_credentials").
Proof.
  intros Hfile Hu He Hp Hname Hmail Hold Hpw w1.
  assert (Hrun := register_runs username email password w db Hfile Hu He Hp).
  rewrite !find_all_false in Hrun;
    try (intros x Hx; apply String.eqb_neq;
         first [now apply Hname | now apply Hmail]).
  specialize (Hrun eq_refl eq_refl).
  exists (public_part (registered_user username email password w)).
  subst w1. rewrite Hrun. cbn [fst snd].
  split; [reflexivity|]. split; [reflexivity|].
  set (user := registered_user username email password w).
  set (db1 := mkDB (users db ++ [user]) (refreshTokens db) (resetTokens db)).
  set (w1 := mkWorld (Some db1) (Some db1) (clock w) (S (reads w))
               (entropy w) (drawn w + 16 + 16)).
  assert (Hfound :
    find (fun u => String.eqb (User.username u) (toLowerCase username)
                   || String.eqb (User.email u) (toLowerCase username))
      (users db1) = Some older).
  { cbn [users db1].
    assert (Hsame : forall l,
      (forall u, In u l -> User.username u <> toLowerCase username) ->
      find (fun u => String.eqb (User.username u) (toLowerCase username)
                     || String.eqb (User.email u) (toLowerCase username)) l
      = find (fun u => String.eqb (User.email u) (toLowerCase username)) l).
    { induction l as [|a l IH]; intros Hl; [reflexivity|].
      cbn. destruct (String.eqb (User.username a) (toLowerCase username))
        eqn:E.
      - apply String.eqb_eq in E. now elim (Hl a (or_introl eq_refl)).
      - cbn [orb]. destruct (String.eqb (User.email a) _); [reflexivity|].
        apply IH. intros u Hu'. apply Hl. now right. }
    assert (Happ : forall (p : User.t -> bool) l x y,
      find p l = Some x -> find p (l ++ y) = Some x).
    { intros p l x y. induction l as [|a l IH]; [discriminate|].
      cbn. destruct (p a); [trivial | exact IH]. }
    apply Happ. now rewrite Hsame. }
  unfold authenticate.
  rewrite (falsy_false _ Hu), (falsy_false _ Hp). cbn [orb]. cbv zeta.
  unfold bind, _load, fs_readFile, set_this_db, this_db, bind.
  cbn [file _db clock reads entropy drawn w1]. rewrite Hfound.
  unfold lift. now rewrite Hpw.
Qed.

End Housekeeping.

(** ** The further theorems at work on the runnable platform *)

Lemma fixture_scrypt_sized : @scrypt_sized Fixture.platform.
Proof.
  intros password salt keylen.
  change (@scryptSync Fixture.platform password salt keylen)
    with (Fixture.checksum keylen (salt ++ ":" ++ password)).
  unfold Fixture.checksum.
  now rewrite length_map, length_seq.
Qed.

Lemma fixture_signing : @signing_platform Fixture.platform.
Proof.
  split; [vm_compute; discriminate|].
  intros data E. apply (f_equal (@List.length byte)) in E.
  change (@sign Fixture.platform data)
    with (Fixture.checksum 32 ("fixture-secret" ++ ":" ++ data)) in E.
  unfold Fixture.checksum in E.
  rewrite length_map, length_seq in E. discriminate E.
Qed.

(** X1, at work: the form stored for [secret] verifies [secret]. *)
Lemma hashPassword_verifyPassword_witness :
  exists stored,
    fst (@_hashPassword Fixture.platform "secret" Fixture.fresh)
    = Return stored
    /\ @_verifyPassword Fixture.platform stored "secret" = Return true.
Proof.
  destruct (@hashPassword_verifyPassword Fixture.platform "secret" "secret"
              Fixture.fresh fixture_scrypt_sized ltac:(discriminate))
    as (stored & salt & H1 & _ & _ & _ & _ & _ & H2).
  exists stored. split; [exact H1 | apply H2; discriminate].
Defined.

(** X3, at work: a token made for fifteen minutes is accepted two
    readings later. *)
Lemma createToken_verifyToken_witness :
  exists token,
    fst (@_createToken Fixture.platform [("sub", JStr "u1")] 900
           Fixture.fresh) = Return token
    /\ fst (@_verifyToken Fixture.platform token (tick (tick Fixture.fresh)))
       = Return
           (Some
              (JObj (@payload_of [("sub", JStr "u1")] 900 1700000000
                       1700000001))).
Proof.
  destruct (@createToken_verifyToken Fixture.platform [("sub", JStr "u1")]
              900 Fixture.fresh (tick (tick Fixture.fresh))
              ltac:(split; [vm_compute; reflexivity | vm_compute; discriminate])
              fixture_signing ltac:(vm_compute; discriminate))
    as (token & H1 & _ & _ & Hacc & _).
  exists token. split; [exact H1|].
  apply Hacc. vm_compute. discriminate.
Defined.


Lemma no_bob_yet :
  forall u, In u (users Fixture.registered_db) ->
    User.username u <> @toLowerCase Fixture.platform "Bob"
    /\ User.email u <> @toLowerCase Fixture.platform "Bob"
    /\ User.username u <> @toLowerCase Fixture.platform "Bob@Example.com"
    /\ User.email u <> @toLowerCase Fixture.platform "Bob@Example.com".
Proof.
  intros u [<-|[]]. repeat split; vm_compute; discriminate.
Qed.

(** X5, at work: Bob registers after Vin. *)
Lemma register_appends_user_witness :
  exists user,
    fst (@register Fixture.platform "Bob" "Bob@Example.com" "pw"
           Fixture.registered) = Return (public_part user)
    /\ User.username user = "bob"
    /\ User.email user = "bob@example.com"
    /\ @_verifyPassword Fixture.platform (User.password user) "pw"
       = Return true.
Proof.
  destruct (@register_appends_user Fixture.platform "Bob" "Bob@Example.com"
              "pw" Fixture.registered Fixture.registered_db
              ltac:(vm_compute; reflexivity)
              ltac:(discriminate) ltac:(discriminate) ltac:(discriminate)
              (fun u Hu => proj1 (no_bob_yet u Hu))
              (fun u Hu => proj2 (proj2 (proj2 (no_bob_yet u Hu))))
              fixture_scrypt_sized)
    as (user & H1 & _ & H3 & H4 & _ & H6).
  exists user. repeat split; assumption.
Defined.

(** X6, at work: Bob signs in by name and by address. *)
Lemma register_then_authenticate_witness :
  exists user byName byEmail,
    fst (@register Fixture.platform "Bob" "Bob@Example.com" "pw"
           Fixture.registered) = Return user
    /\ fst (@authenticate Fixture.platform "Bob" "pw"
              (snd (@register Fixture.platform "Bob" "Bob@Example.com" "pw"
                      Fixture.registered))) = Return byName
    /\ Session.user byName = user
    /\ fst (@authenticate Fixture.platform "Bob@Example.com" "pw"
              (snd (@register Fixture.platform "Bob" "Bob@Example.com" "pw"
                      Fixture.registered))) = Return byEmail
    /\ Session.user byEmail = user.
Proof.
  exact (@register_then_authenticate Fixture.platform "Bob" "Bob@Example.com"
           "pw" Fixture.registered Fixture.registered_db
           ltac:(vm_compute; reflexivity)
           ltac:(discriminate) ltac:(discriminate) ltac:(discriminate)
           no_bob_yet fixture_scrypt_sized).
Defined.

(** X7, at work: Vin signs in. *)
Lemma authenticate_appends_record_witness :
  exists session,
    fst (@authenticate Fixture.platform "Vin" "secret" Fixture.registered)
    = Return session
    /\ Session.user session = public_part Fixture.vin
    /\ file (snd (@authenticate Fixture.platform "Vin" "secret"
                    Fixture.registered))
       = Some
           (mkDB (users Fixture.registered_db)
              (refreshTokens Fixture.registered_db
                 ++ [RefreshToken.mk (Session.refreshToken session)
                       (User.id Fixture.vin)
                       (clock Fixture.registered
                          (4 + reads Fixture.registered) + 7 * 24 * 3600)])
              (resetTokens Fixture.registered_db)).
Proof.
  exact (@authenticate_appends_record Fixture.platform "Vin" "secret"
           Fixture.registered Fixture.registered_db Fixture.vin
           ltac:(vm_compute; reflexivity)
           ltac:(discriminate) ltac:(discriminate)
           ltac:(vm_compute; reflexivity) ltac:(vm_compute; reflexivity)).
Defined.

(** X8, at work: Vin's access token is accepted right after signing in,
    Vin's refresh token is not an access token. *)
Lemma authenticate_tokens_verify_witness :
  exists session payload,
    fst (@authenticate Fixture.platform "Vin" "secret" Fixture.registered)
    = Return session
    /\ fst (@verifyAccessToken Fixture.platform
              (Session.accessToken session) Fixture.signed_in)
       = Return (Some (JObj payload))
    /\ obj_get "sub" payload = Some (JStr (User.id Fixture.vin))
    /\ fst (@verifyAccessToken Fixture.platform
              (Session.refreshToken session) Fixture.signed_in)
       = Return None.
Proof.
  destruct (@authenticate_tokens_verify Fixture.platform "Vin" "secret"
              Fixture.registered Fixture.signed_in Fixture.registered_db
              Fixture.vin
              ltac:(vm_compute; reflexivity)
              ltac:(discriminate) ltac:(discriminate)
              ltac:(vm_compute; reflexivity) ltac:(vm_compute; reflexivity)
              ltac:(split; [vm_compute; reflexivity | vm_compute; discriminate])
              ltac:(split; [vm_compute; reflexivity | vm_compute; discriminate])
              fixture_signing
              ltac:(vm_compute; discriminate) ltac:(vm_compute; discriminate))
    as (session & payload & H1 & H2 & H3 & _ & _ & H6).
  exists session, payload. repeat split; assumption.
Defined.

(** X9, at work: Vin's refresh token buys a new access token for Vin, and
    the file stays as it is. *)
Lemma refreshAccessToken_issues_witness :
  exists issued,
    fst (@refreshAccessToken Fixture.platform
           (@token_of Fixture.platform
              (JObj (refresh_fields (User.id Fixture.vin)
                       Fixture.registered)))
           Fixture.signed_in)
    = Return (@token_of Fixture.platform (JObj issued))
    /\ obj_get "sub" issued = Some (JStr (User.id Fixture.vin))
    /\ obj_get "type" issued = Some (JStr "access")
    /\ file (snd (@refreshAccessToken Fixture.platform
                    (@token_of Fixture.platform
                       (JObj (refresh_fields (User.id Fixture.vin)
                                Fixture.registered)))
                    Fixture.signed_in))
       = Some Fixture.signed_in_db.
Proof.
  destruct (@refreshAccessToken_issues Fixture.platform
              (refresh_fields (User.id Fixture.vin) Fixture.registered)
              1700604804
              Fixture.signed_in Fixture.signed_in_db Fixture.session_record
              ltac:(vm_compute; reflexivity) ltac:(vm_compute; reflexivity)
              ltac:(vm_compute; discriminate)
              ltac:(split; [vm_compute; reflexivity | vm_compute; discriminate])
              fixture_signing
              ltac:(vm_compute; reflexivity) ltac:(vm_compute; reflexivity)
              ltac:(discriminate) ltac:(vm_compute; discriminate))
    as (issued & H1 & H2 & H3 & _ & H5).
  exists issued.
  split; [exact H1|]. split; [exact H2|]. split; [exact H3 | exact H5].
Defined.

(** X10, at work: Vin's refresh token is revoked. *)
Lemma revokeRefreshToken_ends_session_witness :
  fst (@refreshAccessToken Fixture.platform
         (RefreshToken.token Fixture.session_record)
         (snd (revokeRefreshToken
                 (RefreshToken.token Fixture.session_record)
                 Fixture.signed_in)))
  = Throw (Error "invalid_refresh_token").
Proof.
  exact (proj1 (proj2 (proj2
           (@revokeRefreshToken_ends_session Fixture.platform
              (RefreshToken.token Fixture.session_record) Fixture.signed_in
              Fixture.signed_in_db
              ltac:(vm_compute; reflexivity) ltac:(discriminate))))).
Defined.

(** X11, at work: Vin changes the password from [secret] to [next]. *)
Lemma changePassword_replaces_password_witness :
  exists stored,
    fst (@changePassword Fixture.platform (User.id Fixture.vin) "secret"
           "next" Fixture.registered) = Return true
    /\ @_verifyPassword Fixture.platform stored "next" = Return true
    /\ exists db',
         file (snd (@changePassword Fixture.platform (User.id Fixture.vin)
                      "secret" "next" Fixture.registered)) = Some db'
         /\ find (fun u => String.eqb (User.id u) (User.id Fixture.vin))
              (users db')
            = Some (User.set_password stored Fixture.vin).
Proof.
  destruct (@changePassword_replaces_password Fixture.platform
              (User.id Fixture.vin) "secret" "next" Fixture.registered
              Fixture.registered_db Fixture.vin
              ltac:(vm_compute; reflexivity)
              ltac:(discriminate) ltac:(discriminate) ltac:(discriminate)
              ltac:(vm_compute; reflexivity) ltac:(vm_compute; reflexivity)
              fixture_scrypt_sized)
    as (stored & db' & H1 & H2 & H3 & H4 & _).
  exists stored. split; [exact H1|]. split; [exact H3|].
  exists db'. split; assumption.
Defined.

(** X12, at work: Vin asks for a reset token and it checks out. *)
Lemma generateResetToken_then_verify_witness :
  exists grant,
    fst (@generateResetToken Fixture.platform "V@Example.com"
           Fixture.signed_in) = Return grant
    /\ fst (@verifyResetToken Fixture.platform (ResetGrant.resetToken grant)
              (snd (@generateResetToken Fixture.platform "V@Example.com"
                      Fixture.signed_in)))
       = Return (Some (User.id Fixture.vin)).
Proof.
  destruct (@generateResetToken_then_verify Fixture.platform "V@Example.com"
              Fixture.signed_in Fixture.signed_in_db Fixture.vin
              ltac:(vm_compute; reflexivity) ltac:(discriminate)
              ltac:(vm_compute; reflexivity)
              ltac:(intros r [])) as (grant & db1 & H1 & H2 & _ & _ & _ & _ & H7).
  exists grant. split; [exact H1|].
  apply H7; [reflexivity|].
  rewrite H2. vm_compute. discriminate.
Defined.

(** X13, at work: a token nobody was given, and Vin's token two hours
    late. *)
Lemma verifyResetToken_rejects_witness :
  fst (@verifyResetToken Fixture.platform "nobody" Fixture.reset_requested)
  = Return None
  /\ fst (@verifyResetToken Fixture.platform Fixture.raw_reset_token
            Scenes.reset_expired) = Return None
  /\ file (snd (@verifyResetToken Fixture.platform Fixture.raw_reset_token
                  Scenes.reset_expired))
     = Some (mkDB (users Fixture.reset_db) (refreshTokens Fixture.reset_db)
               []).
Proof.
  split.
  - apply (proj1 (@verifyResetToken_rejects Fixture.platform "nobody"
                    Fixture.reset_requested Fixture.reset_db
                    ltac:(vm_compute; reflexivity) ltac:(discriminate))).
    intros r [<-|[]]. vm_compute. discriminate.
  - destruct (proj2 (@verifyResetToken_rejects Fixture.platform
                       Fixture.raw_reset_token Scenes.reset_expired
                       Fixture.reset_db
                       ltac:(vm_compute; reflexivity) ltac:(discriminate))
                Fixture.reset_record
                ltac:(vm_compute; reflexivity) ltac:(vm_compute; reflexivity))
      as (H1 & H2 & _).
    split; [exact H1|]. rewrite H2. vm_compute. reflexivity.
Defined.

(** X14, at work: a token nobody was given is not redeemed. *)
Lemma consumeResetToken_rejects_unknown_witness :
  fst (@consumeResetToken Fixture.platform "nobody" "newpass"
         Fixture.reset_requested)
  = Throw (Error "invalid_reset_token")
  /\ file (snd (@consumeResetToken Fixture.platform "nobody" "newpass"
                  Fixture.reset_requested))
     = Some Fixture.reset_db.
Proof.
  apply (@consumeResetToken_rejects_unknown Fixture.platform "nobody"
           "newpass" Fixture.reset_requested Fixture.reset_db
           ltac:(vm_compute; reflexivity)).
  right. intros r [<-|[]]. vm_compute. discriminate.
Defined.

(** X15, at work: Vin redeems the token for the password Vin has, and
    cannot redeem it again. *)
Lemma consumeResetToken_uses_up_token_witness :
  fst (@consumeResetToken Fixture.platform Fixture.raw_reset_token "secret"
         Fixture.reset_requested) = Return true
  /\ fst (@consumeResetToken Fixture.platform Fixture.raw_reset_token
            "secret"
            (snd (@consumeResetToken Fixture.platform
                    Fixture.raw_reset_token "secret"
                    Fixture.reset_requested)))
     = Throw (Error "invalid_reset_token").
Proof.
  destruct (@consumeResetToken_uses_up_token Fixture.platform
              Fixture.raw_reset_token "secret" Fixture.reset_requested
              Fixture.reset_db Fixture.reset_record Fixture.vin
              ltac:(vm_compute; reflexivity)
              ltac:(discriminate) ltac:(discriminate)
              ltac:(vm_compute; reflexivity) ltac:(vm_compute; discriminate)
              ltac:(discriminate)
              ltac:(vm_compute; reflexivity) ltac:(vm_compute; reflexivity))
    as (db1 & H1 & _ & _ & _ & _ & _ & H7).
  split; [exact H1 | apply H7].
Defined.

(** X16, at work: eight days on, the sweep removes Vin's refresh record. *)
Lemma cleanupExpired_keeps_live_witness :
  exists db',
    file (snd (cleanupExpired Fixture.eight_days_later))
    = Some db'
    /\ users db' = users Fixture.signed_in_db
    /\ refreshTokens db' = [].
Proof.
  destruct (cleanupExpired_keeps_live
              Fixture.eight_days_later Fixture.signed_in_db
              ltac:(vm_compute; reflexivity))
    as (db' & _ & H2 & H3 & H4 & _).
  exists db'. split; [exact H2|]. split; [exact H3|].
  rewrite H4. vm_compute. reflexivity.
Defined.

(** X17, at work: a wrong password. *)
Lemma failed_call_keeps_users_witness :
  stored_users
    (@exec Fixture.platform (Authenticate "vin" "wrong") Fixture.registered)
  = stored_users Fixture.registered.
Proof.
  apply (@failed_call_keeps_users Fixture.platform
           (Authenticate "vin" "wrong") Fixture.registered).
  vm_compute. reflexivity.
Defined.

(** X18, at work: Bob's registration after Vin's. *)
Lemma users_only_grow_witness :
  exists db' extra,
    file (@exec Fixture.platform (Register "Bob" "bob@example.com" "pw")
            Fixture.registered) = Some db'
    /\ map user_info (users db')
       = map user_info (users Fixture.registered_db) ++ extra
    /\ (List.length extra <= 1)%nat.
Proof.
  exact (@users_only_grow Fixture.platform
           (Register "Bob" "bob@example.com" "pw") Fixture.registered
           Fixture.registered_db ltac:(vm_compute; reflexivity)).
Defined.

(** X19, at work: a revocation adds no record of either kind. *)
Lemma records_only_added_on_request_witness :
  incl (refreshTokens Scenes.revoked_db) (refreshTokens Fixture.signed_in_db)
  /\ incl (resetTokens Scenes.revoked_db) (resetTokens Fixture.signed_in_db).
Proof.
  destruct (@records_only_added_on_request Fixture.platform
              (RevokeRefreshToken (RefreshToken.token Fixture.session_record))
              Fixture.signed_in Fixture.signed_in_db Scenes.revoked_db
              ltac:(vm_compute; reflexivity) ltac:(vm_compute; reflexivity))
    as [H1 H2].
  split; [apply H1 | apply H2]; discriminate.
Defined.

(** X20, at work: a registration before [init]. *)
Lemma only_init_creates_the_file_witness :
  file (@exec Fixture.platform (Register "Vin" "v@example.com" "secret")
          Fixture.fresh) = None.
Proof.
  apply (@only_init_creates_the_file Fixture.platform
           (Register "Vin" "v@example.com" "secret") Fixture.fresh).
  - reflexivity.
  - discriminate.
Defined.

(** X22, at work: Vin is looked up by id. *)
Lemma getUserById_reads_witness :
  file (snd (getUserById (User.id Fixture.vin)
               Fixture.registered))
  = Some Fixture.registered_db
  /\ exists u,
       In u (users Fixture.registered_db)
       /\ User.id u = User.id Fixture.vin
       /\ user_info Fixture.vin = user_info u.
Proof.
  destruct (getUserById_reads (User.id Fixture.vin)
              Fixture.registered Fixture.registered_db
              ltac:(vm_compute; reflexivity)) as (H1 & _ & H3 & _).
  split; [exact H1|].
  apply H3. vm_compute. reflexivity.
Defined.

(** X23, at work: Amy's address is bob; Bob registers and cannot sign in
    by name. *)
Lemma register_name_shadowed_by_address_witness :
  exists user,
    fst (@register Fixture.platform "Bob" "bob@example.com" "bobpw"
           Scenes.amy_registered) = Return user
    /\ PublicUser.username user = "bob"
    /\ fst (@authenticate Fixture.platform "Bob" "bobpw"
              (snd (@register Fixture.platform "Bob" "bob@example.com"
                      "bobpw" Scenes.amy_registered)))
       = Throw (Error "invalid_credentials").
Proof.
  apply (@register_name_shadowed_by_address Fixture.platform "Bob"
           "bob@example.com" "bobpw" Scenes.amy_registered Scenes.amy_db
           Scenes.amy).
  - vm_compute. reflexivity.
  - discriminate.
  - discriminate.
  - discriminate.
  - intros u [<-|[]]. vm_compute. discriminate.
  - intros u [<-|[]]. vm_compute. discriminate.
  - vm_compute. reflexivity.
  - vm_compute. reflexivity.
Defined.
